(** * The IPSec policy resource of the Power Systems provider

    A shallow embedding of [ibm/resource_ibm_pi_ipsec_policy.go]: the schema
    of the resource, its four lifecycle functions (create, read, update,
    delete) and the properties the specification states about them.

    The lifecycle functions talk to a remote API through the VPN policy
    client.  They are embedded as finite interaction programs ([Prog]): a
    program either returns, panics, writes a log line, or calls one of the
    four client operations and continues with the answer.  A program is run
    against an arbitrary remote ([VpnPolicyAPI]); the run records every
    exchange, so that statements about what is sent, how often, and what
    comes back are statements about that record. *)

From Stdlib Require Import String Ascii List ZArith Bool Lia.
Import ListNotations.
Local Open Scope string_scope.
Local Open Scope Z_scope.

Set Implicit Arguments.

(** ** Go values used by the file *)

(** A Go [error] is kept as the text its [Error()] method gives. *)
Definition error := string.

(** ** Diagnostics of the host framework *)

Module diag.

Inductive Severity : Type := Error | Warning.

(** The format constants of the client's [errors] package that the file
    passes to [diag.Errorf].  Their text is declared outside this file. *)
Inductive ErrFormat : Type :=
| CreateVPNPolicyOperationFailed
| UpdateVPNPolicyOperationFailed
| GetCloudConnectionOperationFailed
| DeleteVPNPolicyOperationFailed.

(** The summary of a diagnostic.  [diag.FromErr err] takes the text of the
    error; [diag.Errorf format a b] takes [fmt.Sprintf format a b].  The
    second is kept unformatted, as the format constant with its two
    arguments, so that the error a diagnostic was made from can be read back. *)
Inductive Summary : Type :=
| OfErr (err : error)
| Sprintf (format : ErrFormat) (arg : string) (err : error)
| Text (s : string).

Record Diagnostic : Type := { severity : Severity; summary : Summary }.

(** [diag.Diagnostics]; the Go [nil] is the empty list. *)
Definition Diagnostics := list Diagnostic.

Definition FromErr (err : error) : Diagnostics :=
  [{| severity := Error; summary := OfErr err |}].

Definition Errorf (format : ErrFormat) (arg : string) (err : error) : Diagnostics :=
  [{| severity := Error; summary := Sprintf format arg err |}].

(** [Diagnostics.HasError]. *)
Definition HasError (ds : Diagnostics) : bool :=
  existsb (fun d => match severity d with Error => true | Warning => false end) ds.

(** The error a diagnostic carries, if it was built from one. *)
Definition wrapped (d : Diagnostic) : option error :=
  match summary d with
  | OfErr e => Some e
  | Sprintf _ _ e => Some e
  | Text _ => None
  end.

End diag.

(** ** The schema side: keys, value types, resource data *)

Module schema.

(** The attribute names of the resource.  The Go code names them through
    constants ([helpers.PICloudInstanceId], ..., [PIPolicyId]) that are
    declared outside this file; each constant is one constructor here, which
    assumes no more than that the eight names are pairwise different. *)
Inductive Key : Type :=
| PICloudInstanceId
| PIVPNPolicyName
| PIVPNPolicyDhGroup
| PIVPNPolicyEncryption
| PIVPNPolicyKeyLifetime
| PIVPNPolicyPFS
| PIVPNPolicyAuthentication
| PIPolicyId.

Definition Key_eq_dec (a b : Key) : {a = b} + {a <> b}.
Proof. decide equality. Defined.

Definition all_keys : list Key :=
  [PICloudInstanceId; PIVPNPolicyName; PIVPNPolicyDhGroup;
   PIVPNPolicyEncryption; PIVPNPolicyKeyLifetime; PIVPNPolicyPFS;
   PIVPNPolicyAuthentication; PIPolicyId].

(** [schema.ValueType], restricted to the three types the resource uses. *)
Inductive ValueType : Type := TypeString | TypeInt | TypeBool.

(** The Go type behind a [ValueType]: [string], [int] (as [Z]), [bool]. *)
Definition goType (t : ValueType) : Type :=
  match t with
  | TypeString => string
  | TypeInt => Z
  | TypeBool => bool
  end.

(** [Schema.ZeroValue]. *)
Definition ZeroValue (t : ValueType) : goType t :=
  match t with
  | TypeString => ""
  | TypeInt => 0
  | TypeBool => false
  end.

(** Equality of two values of one schema type ([reflect.DeepEqual] on
    primitives). *)
Definition DeepEqual (t : ValueType) : goType t -> goType t -> bool :=
  match t with
  | TypeString => String.eqb
  | TypeInt => Z.eqb
  | TypeBool => Bool.eqb
  end.

(** [schema.SchemaValidateFunc]: warnings and errors for one value. *)
Definition SchemaValidateFunc (t : ValueType) : Type :=
  goType t -> list string * list error.

(** One entry of the schema map. *)
Record Schema : Type := {
  Type_ : ValueType;
  Required : bool;
  Optional : bool;
  Computed : bool;
  Default : option (goType Type_);
  ValidateFunc : option (SchemaValidateFunc Type_);
  Description : string
}.

Section ResourceData.

(** The schema map of the resource the data belongs to. *)
Variable sch : Key -> Schema.

(** One level of values: what is known for each key, typed by the schema. *)
Definition Level : Type := forall k : Key, option (goType (Type_ (sch k))).

Definition empty_level : Level := fun _ => None.

(** Writing one key of a level. *)
Definition write (l : Level) (k : Key) (v : goType (Type_ (sch k))) : Level :=
  fun k' =>
    match Key_eq_dec k k' with
    | left e => Some (eq_rect k (fun x => goType (Type_ (sch x))) v k' e)
    | right _ => l k'
    end.

(** [schema.ResourceData], as far as the file uses it: the identifier and
    the three levels its reader merges, lowest first: the prior state, the
    planned values (configuration and defaults laid over the state by the
    diff), and the values written with [Set]. *)
Record ResourceData : Type := {
  rd_id : string;
  rd_state : Level;
  rd_diff : Level;
  rd_set : Level
}.

(** [d.Id()]. *)
Definition Id (d : ResourceData) : string := rd_id d.

(** [d.SetId(v)]. *)
Definition SetId (d : ResourceData) (v : string) : ResourceData :=
  {| rd_id := v; rd_state := rd_state d; rd_diff := rd_diff d; rd_set := rd_set d |}.

(** The old value of a change: the state level alone. *)
Definition readState (d : ResourceData) (k : Key) : option (goType (Type_ (sch k))) :=
  rd_state d k.

(** The new value of a change: the diff level over the state. *)
Definition readDiff (d : ResourceData) (k : Key) : option (goType (Type_ (sch k))) :=
  match rd_diff d k with
  | Some v => Some v
  | None => readState d k
  end.

(** What [Get] reads: the set level over the diff level over the state. *)
Definition readSet (d : ResourceData) (k : Key) : option (goType (Type_ (sch k))) :=
  match rd_set d k with
  | Some v => Some v
  | None => readDiff d k
  end.

Definition orZero (k : Key) (r : option (goType (Type_ (sch k)))) : goType (Type_ (sch k)) :=
  match r with
  | Some v => v
  | None => ZeroValue (Type_ (sch k))
  end.

(** [d.Get(key)]: the merged value, the zero value of the type when no level
    has one. *)
Definition Get (d : ResourceData) (k : Key) : goType (Type_ (sch k)) :=
  orZero k (readSet d k).

(** [d.GetOk(key)]: the value and whether it is set to a non-zero value. *)
Definition GetOk (d : ResourceData) (k : Key) : goType (Type_ (sch k)) * bool :=
  match readSet d k with
  | Some v => (v, negb (DeepEqual (Type_ (sch k)) v (ZeroValue (Type_ (sch k)))))
  | None => (ZeroValue (Type_ (sch k)), false)
  end.

(** [d.GetChange(key)]: the old value from the state, the new one from the
    diff. *)
Definition GetChange (d : ResourceData) (k : Key)
  : goType (Type_ (sch k)) * goType (Type_ (sch k)) :=
  (orZero k (readState d k), orZero k (readDiff d k)).

(** [d.HasChange(key)]. *)
Definition HasChange (d : ResourceData) (k : Key) : bool :=
  let (o, n) := GetChange d k in negb (DeepEqual (Type_ (sch k)) o n).

(** [d.Set(key, value)]: writes the set level.  The file hands [Set] the
    fields of the remote response, whose Go types convert to the schema type
    of the key without loss; the error [Set] can return is dropped by the
    file and does not arise for such values. *)
Definition Set_ (d : ResourceData) (k : Key) (v : goType (Type_ (sch k))) : ResourceData :=
  {| rd_id := rd_id d; rd_state := rd_state d; rd_diff := rd_diff d;
     rd_set := write (rd_set d) k v |}.

(** *** Validation of a configuration against the schema *)

(** What the user wrote: a value for some of the keys. *)
Definition ResourceConfig : Type := Level.

(** The framework's check of one key: a required key must be present, a
    key that is neither required nor optional (computed only) must be
    absent, and a present value goes through the [ValidateFunc] of the key. *)
Definition validate (k : Key) (c : ResourceConfig) : diag.Diagnostics :=
  match c k with
  | None =>
      if Required (sch k)
      then [{| diag.severity := diag.Error; diag.summary := diag.Text "Missing required argument" |}]
      else []
  | Some raw =>
      if negb (Required (sch k)) && negb (Optional (sch k))
      then [{| diag.severity := diag.Error; diag.summary := diag.Text "Computed attributes cannot be set" |}]
      else
        match ValidateFunc (sch k) with
        | None => []
        | Some f =>
            (map (fun w => {| diag.severity := diag.Warning; diag.summary := diag.Text w |}) (fst (f raw))
             ++ map (fun e => {| diag.severity := diag.Error; diag.summary := diag.OfErr e |}) (snd (f raw)))%list
        end
  end.

(** The check of a whole configuration: every key of the schema in turn. *)
Definition Validate (c : ResourceConfig) : diag.Diagnostics :=
  flat_map (fun k => validate k c) all_keys.

(** A configuration is accepted when its validation reports no error. *)
Definition accepts (c : ResourceConfig) : bool := negb (diag.HasError (Validate c)).

(** The value a key has once the configuration is planned: the configured
    value, else the default of the schema. *)
Definition planned (c : ResourceConfig) (k : Key) : option (goType (Type_ (sch k))) :=
  match c k with
  | Some v => Some v
  | None => Default (sch k)
  end.

End ResourceData.

End schema.
Import schema.

(** ** Go's [strings] package *)

Module strings.

Definition slash : ascii := "/"%char.

(** [strings.Contains(s, "/")], for the one-byte separator the file uses. *)
Fixpoint Contains (s : string) (sep : ascii) : bool :=
  match s with
  | EmptyString => false
  | String c s' => if Ascii.eqb c sep then true else Contains s' sep
  end.

(** [strings.Split(s, sep)] for a one-byte separator: the pieces of [s]
    between the separators, in order; a string without separator is its own
    single piece. *)
Fixpoint Split (s : string) (sep : ascii) : list string :=
  match s with
  | EmptyString => [EmptyString]
  | String c s' =>
      if Ascii.eqb c sep then EmptyString :: Split s' sep
      else
        match Split s' sep with
        | piece :: rest => String c piece :: rest
        | [] => [String c EmptyString]
        end
  end.

End strings.

(** ** Helpers of the provider package that this file calls *)

(** Modelled from the spec: [idParts] is declared in another file of the
    package.  The specification speaks of a composite identifier
    [cloudInstanceID/policyID], and the callers take the parts by position
    after checking the error: the identifier is cut at every "/", and an
    identifier without "/" is an error. *)
Definition idParts (id : string) : list string * option error :=
  if strings.Contains id strings.slash
  then (strings.Split id strings.slash, None)
  else ([], Some ("The given id " ++ id ++ " does not contain /")).

(** Modelled from the spec: [validateAllowedIntValue] is declared in another
    file of the package; it accepts a value exactly when it is one of the
    listed integers. *)
Definition validateAllowedIntValue (allowed : list Z) : SchemaValidateFunc TypeInt :=
  fun value =>
    if existsb (Z.eqb value) allowed then ([], [])
    else ([], ["must contain a valid int value from the allowed list"]).

(** Modelled from the spec: [validateAllowedStringValue] is declared in
    another file of the package; it accepts a value exactly when it is one of
    the listed strings. *)
Definition validateAllowedStringValue (validValues : list string) : SchemaValidateFunc TypeString :=
  fun input =>
    if existsb (String.eqb input) validValues then ([], [])
    else ([], ["must contain a value from the allowed list"]).

(** Modelled from the spec: [validateAllowedRangeInt] is declared in another
    file of the package; it accepts a value exactly when it lies between the
    two bounds, both included. *)
Definition validateAllowedRangeInt (first last : Z) : SchemaValidateFunc TypeInt :=
  fun value =>
    if (value <? first) || (value >? last)
    then ([], ["must contain a valid int value in the allowed range"])
    else ([], []).

(** ** The schema of the resource *)

Definition allowedDhGroups : list Z := [1; 2; 5; 14; 19; 20; 24].

Definition allowedEncryptions : list string :=
  ["3des-cbc"; "aes-128-cbc"; "aes-128-gcm"; "aes-192-cbc"; "aes-256-cbc";
   "aes-256-gcm"; "des-cbc"].

Definition allowedAuthentications : list string :=
  ["hmac-md5-96"; "hmac-sha-256-128"; "hmac-sha1-96"; "none"].

(** The [Schema] map of [resourceIBMPIIPSecPolicy], entry by entry. *)
Definition ipsecPolicySchema (k : Key) : Schema :=
  match k with
  (* Required Attributes *)
  | PICloudInstanceId =>
      {| Type_ := TypeString; Required := true; Optional := false; Computed := false;
         Default := None; ValidateFunc := None;
         Description := "PI cloud instance ID" |}
  | PIVPNPolicyName =>
      {| Type_ := TypeString; Required := true; Optional := false; Computed := false;
         Default := None; ValidateFunc := None;
         Description := "Name of the IPSec Policy" |}
  | PIVPNPolicyDhGroup =>
      {| Type_ := TypeInt; Required := true; Optional := false; Computed := false;
         Default := None;
         ValidateFunc := Some (validateAllowedIntValue allowedDhGroups);
         Description := "DH group of the IPSec Policy" |}
  | PIVPNPolicyEncryption =>
      {| Type_ := TypeString; Required := true; Optional := false; Computed := false;
         Default := None;
         ValidateFunc := Some (validateAllowedStringValue allowedEncryptions);
         Description := "Encryption of the IPSec Policy" |}
  | PIVPNPolicyKeyLifetime =>
      {| Type_ := TypeInt; Required := true; Optional := false; Computed := false;
         Default := None;
         ValidateFunc := Some (validateAllowedRangeInt 180 86400);
         Description := "Policy key lifetime" |}
  | PIVPNPolicyPFS =>
      {| Type_ := TypeBool; Required := true; Optional := false; Computed := false;
         Default := None; ValidateFunc := None;
         Description := "Perfect Forward Secrecy" |}
  (* Optional Attributes *)
  | PIVPNPolicyAuthentication =>
      {| Type_ := TypeString; Required := false; Optional := true; Computed := false;
         Default := Some "none";
         ValidateFunc := Some (validateAllowedStringValue allowedAuthentications);
         Description := "Authentication for the IPSec Policy" |}
  (* Computed Attributes *)
  | PIPolicyId =>
      {| Type_ := TypeString; Required := false; Optional := false; Computed := true;
         Default := None; ValidateFunc := None;
         Description := "IPSec policy ID" |}
  end.

(** The resource data of an IPSec policy. *)
Definition PolicyData : Type := ResourceData ipsecPolicySchema.

(** ** The remote side: session, client, request and response structs *)

(** [ibmpisession.IBMPISession] is opaque to this file: a handle. *)
Record IBMPISession : Type := { sessionHandle : string }.

(** The [ClientSession] behind [meta] (the provider hands every lifecycle
    function its own [ClientSession], so the type assertion on [meta] holds);
    the file uses one method of it, [IBMPISession()], which gives the session
    or an error.  Whatever else the provider keeps in the object is
    [otherSessions], opaque here. *)
Record ClientSession : Type := {
  getIBMPISession : IBMPISession + error;
  otherSessions : string
}.

Module models.

(** [models.IPSecPolicyCreate]: the fields the file fills.  Pointer fields
    are options ([nil] is [None]). *)
Record IPSecPolicyCreate : Type := {
  c_Authentication : string;
  c_DhGroup : option Z;
  c_Encryption : option string;
  c_KeyLifetime : Z;
  c_Name : option string;
  c_Pfs : option bool
}.

(** [models.IPSecPolicyUpdate]. *)
Record IPSecPolicyUpdate : Type := {
  u_Authentication : string;
  u_DhGroup : Z;
  u_Encryption : string;
  u_KeyLifetime : Z;
  u_Name : string;
  u_Pfs : option bool
}.

(** [&models.IPSecPolicyUpdate{}]: every field at its zero value. *)
Definition emptyUpdate : IPSecPolicyUpdate :=
  {| u_Authentication := ""; u_DhGroup := 0; u_Encryption := "";
     u_KeyLifetime := 0; u_Name := ""; u_Pfs := None |}.

(** The struct [models.IPSecPolicy].  Each of its seven fields is a pointer
    ([nil] is [None]). *)
Record IPSecPolicyStruct : Type := {
  ptrID : option string;
  ptrName : option string;
  ptrDhGroup : option Z;
  ptrEncryption : option string;
  ptrKeyLifetime : option Z;
  ptrPfs : option bool;
  ptrAuthentication : option string
}.

(** What a client operation answers with: the pointer [*models.IPSecPolicy],
    which may be [nil] also when the error is. *)
Definition IPSecPolicy : Type := option IPSecPolicyStruct.

(** The value [d.Set] stores when it is handed a pointer field: the value
    pointed to, and the zero value of the type for a [nil] pointer. *)
Definition stored {A : Type} (zero : A) (ptr : option A) : A :=
  match ptr with
  | Some v => v
  | None => zero
  end.

(** The seven fields of a policy as [d.Set] stores them.  On a [nil] policy
    the Go selection panics; the functions below are never run there. *)
Definition ID (p : IPSecPolicy) : string :=
  match p with Some s => stored "" (ptrID s) | None => "" end.
Definition Name (p : IPSecPolicy) : string :=
  match p with Some s => stored "" (ptrName s) | None => "" end.
Definition DhGroup (p : IPSecPolicy) : Z :=
  match p with Some s => stored 0 (ptrDhGroup s) | None => 0 end.
Definition Encryption (p : IPSecPolicy) : string :=
  match p with Some s => stored "" (ptrEncryption s) | None => "" end.
Definition KeyLifetime (p : IPSecPolicy) : Z :=
  match p with Some s => stored 0 (ptrKeyLifetime s) | None => 0 end.
Definition Pfs (p : IPSecPolicy) : bool :=
  match p with Some s => stored false (ptrPfs s) | None => false end.
Definition Authentication (p : IPSecPolicy) : string :=
  match p with Some s => stored "" (ptrAuthentication s) | None => "" end.

(** [*ipsecPolicy.ID]: the ID of the policy, [None] where the Go expression
    panics, on a [nil] policy or a [nil] ID. *)
Definition derefID (p : IPSecPolicy) : option string :=
  match p with
  | Some s => ptrID s
  | None => None
  end.

End models.
Import models.

(** The client made by [st.NewIBMPIVpnPolicyClient(sess, cloudInstanceID)]. *)
Record IBMPIVpnPolicyClient : Type := {
  clientSession : IBMPISession;
  clientCloudInstanceID : string
}.

Definition NewIBMPIVpnPolicyClient (sess : IBMPISession) (cloudInstanceID : string)
  : IBMPIVpnPolicyClient :=
  {| clientSession := sess; clientCloudInstanceID := cloudInstanceID |}.

(** [int64(x)] of a Go [int]: the same number (an [int] has at most 64 bits). *)
Definition int64 (x : Z) : Z := x.

(** ** Programs that talk to the remote API *)

(** What a lifecycle function does, step by step: it returns, panics, writes
    a line with [log.Printf], or calls one of the four operations of the VPN
    policy client and goes on with the answer.  The three operations that
    give a pointer to a [models.IPSecPolicy] and an [error] answer with a policy or an error; the
    delete operation answers with an error or [nil].  The [context.Context]
    every operation takes carries nothing the file reads and is left out. *)
Inductive Prog (A : Type) : Type :=
| Ret (a : A)
| Panic (msg : string)
| LogPrintf (format : string) (v : error) (k : Prog A)
| CreateIPSecPolicyWithContext (client : IBMPIVpnPolicyClient)
    (body : IPSecPolicyCreate) (cloudInstanceID : string)
    (k : IPSecPolicy + error -> Prog A)
| GetIPSecPolicyWithContext (client : IBMPIVpnPolicyClient)
    (policyID cloudInstanceID : string)
    (k : IPSecPolicy + error -> Prog A)
| UpdateIPSecPolicyWithContext (client : IBMPIVpnPolicyClient)
    (body : IPSecPolicyUpdate) (policyID cloudInstanceID : string)
    (k : IPSecPolicy + error -> Prog A)
| DeleteIPSecPolicyWithContext (client : IBMPIVpnPolicyClient)
    (policyID cloudInstanceID : string)
    (k : option error -> Prog A).

Arguments Panic {A} msg.

(** [parts[i]]: the element, or the run-time panic of Go when [i] is out of
    range. *)
Definition index {A : Type} (parts : list string) (i : nat) (k : string -> Prog A) : Prog A :=
  match nth_error parts i with
  | Some s => k s
  | None => Panic "runtime error: index out of range"
  end.

(** A request as it reaches the remote, and the answer that comes back. *)
Inductive Request : Type :=
| ReqCreate (client : IBMPIVpnPolicyClient) (body : IPSecPolicyCreate) (cloudInstanceID : string)
| ReqGet (client : IBMPIVpnPolicyClient) (policyID cloudInstanceID : string)
| ReqUpdate (client : IBMPIVpnPolicyClient) (body : IPSecPolicyUpdate) (policyID cloudInstanceID : string)
| ReqDelete (client : IBMPIVpnPolicyClient) (policyID cloudInstanceID : string).

Inductive Response : Type :=
| RespPolicy (r : IPSecPolicy + error)
| RespDelete (r : option error).

(** One request/response exchange. *)
Definition Exchange : Type := (Request * Response)%type.

(** The error of an answer, if it is one. *)
Definition responseError (r : Response) : option error :=
  match r with
  | RespPolicy (inl _) => None
  | RespPolicy (inr e) => Some e
  | RespDelete r => r
  end.

(** A remote: for each operation, the answer and the next state of the
    remote, from the request and the state it is in.  Nothing is assumed of
    a remote beyond that. *)
Record VpnPolicyAPI (W : Type) : Type := {
  doCreate : IBMPIVpnPolicyClient -> IPSecPolicyCreate -> string -> W -> (IPSecPolicy + error) * W;
  doGet : IBMPIVpnPolicyClient -> string -> string -> W -> (IPSecPolicy + error) * W;
  doUpdate : IBMPIVpnPolicyClient -> IPSecPolicyUpdate -> string -> string -> W -> (IPSecPolicy + error) * W;
  doDelete : IBMPIVpnPolicyClient -> string -> string -> W -> option error * W
}.

(** What a run leaves behind: the value returned ([None] after a panic), the
    exchanges with the remote in order, the log lines in order, and the
    state of the remote. *)
Record Run (A W : Type) : Type := {
  result : option A;
  exchanges : list Exchange;
  logged : list (string * error);
  remote : W
}.

Definition withExchange {A W : Type} (x : Exchange) (r : Run A W) : Run A W :=
  {| result := result r; exchanges := x :: exchanges r; logged := logged r; remote := remote r |}.

Definition withLog {A W : Type} (l : string * error) (r : Run A W) : Run A W :=
  {| result := result r; exchanges := exchanges r; logged := l :: logged r; remote := remote r |}.

(** The run of a program that returns [a] after logging [ls], without
    turning to the remote. *)
Definition finished {A W : Type} (a : A) (ls : list (string * error)) (w : W) : Run A W :=
  {| result := Some a; exchanges := []; logged := ls; remote := w |}.

(** The run of a program that panics, without turning to the remote. *)
Definition panicked {A W : Type} (w : W) : Run A W :=
  {| result := None; exchanges := []; logged := []; remote := w |}.

(** Running a program against a remote. *)
Fixpoint run {A W : Type} (api : VpnPolicyAPI W) (p : Prog A) (w : W) : Run A W :=
  match p with
  | Ret a => {| result := Some a; exchanges := []; logged := []; remote := w |}
  | Panic _ => {| result := None; exchanges := []; logged := []; remote := w |}
  | LogPrintf format v k => withLog (format, v) (run api k w)
  | CreateIPSecPolicyWithContext client body cid k =>
      let (r, w') := doCreate api client body cid w in
      withExchange (ReqCreate client body cid, RespPolicy r) (run api (k r) w')
  | GetIPSecPolicyWithContext client pid cid k =>
      let (r, w') := doGet api client pid cid w in
      withExchange (ReqGet client pid cid, RespPolicy r) (run api (k r) w')
  | UpdateIPSecPolicyWithContext client body pid cid k =>
      let (r, w') := doUpdate api client body pid cid w in
      withExchange (ReqUpdate client body pid cid, RespPolicy r) (run api (k r) w')
  | DeleteIPSecPolicyWithContext client pid cid k =>
      let (r, w') := doDelete api client pid cid w in
      withExchange (ReqDelete client pid cid, RespDelete r) (run api (k r) w')
  end.

(** The requests and the answers of a run, each in order. *)
Definition requests {A W : Type} (r : Run A W) : list Request := map fst (exchanges r).
Definition responses {A W : Type} (r : Run A W) : list Response := map snd (exchanges r).

(** ** The four lifecycle functions *)

(** What a lifecycle function gives back: the resource data as the function
    leaves it (Go mutates [d] in place) and the diagnostics it returns. *)
Definition Lifecycle : Type :=
  PolicyData -> ClientSession -> Prog (PolicyData * diag.Diagnostics).

(** The seven [d.Set] calls of [resourceIBMPIIPSecPolicyRead], in order:
    the resource data they leave once a policy came back.  Each call is
    handed a pointer field of the policy, which [d.Set] stores by value. *)
Definition readBack (d : PolicyData) (ipsecPolicy : IPSecPolicy) : PolicyData :=
  let d := Set_ d PIPolicyId (ID ipsecPolicy) in
  let d := Set_ d PIVPNPolicyName (Name ipsecPolicy) in
  let d := Set_ d PIVPNPolicyDhGroup (DhGroup ipsecPolicy) in
  let d := Set_ d PIVPNPolicyEncryption (Encryption ipsecPolicy) in
  let d := Set_ d PIVPNPolicyKeyLifetime (KeyLifetime ipsecPolicy) in
  let d := Set_ d PIVPNPolicyPFS (Pfs ipsecPolicy) in
  Set_ d PIVPNPolicyAuthentication (Authentication ipsecPolicy).

Definition resourceIBMPIIPSecPolicyRead : Lifecycle := fun d meta =>
  match getIBMPISession meta with
  | inr err => Ret (d, diag.FromErr err)
  | inl sess =>
      match idParts (Id d) with
      | (_, Some err) => Ret (d, diag.FromErr err)
      | (parts, None) =>
          index parts 0 (fun cloudInstanceID =>
          index parts 1 (fun policyID =>
          let client := NewIBMPIVpnPolicyClient sess cloudInstanceID in
          GetIPSecPolicyWithContext client policyID cloudInstanceID (fun r =>
            match r with
            | inr err =>
                LogPrintf "[DEBUG] get VPN policy failed %v" err
                  (Ret (d, diag.Errorf diag.GetCloudConnectionOperationFailed policyID err))
            | inl ipsecPolicy =>
                match ipsecPolicy with
                | None => Panic "runtime error: invalid memory address or nil pointer dereference"
                | Some _ =>
                    let d := readBack d ipsecPolicy in
                    Ret (d, [])
                end
            end)))
      end
  end.

(** The body [resourceIBMPIIPSecPolicyCreate] builds from the resource
    data: the five required values, and the authentication when [GetOk]
    finds one. *)
Definition createBody (d : PolicyData) : IPSecPolicyCreate :=
  let name : string := Get d PIVPNPolicyName in
  let dhGroup := int64 (Get d PIVPNPolicyDhGroup) in
  let encryption : string := Get d PIVPNPolicyEncryption in
  let keyLifetime := int64 (Get d PIVPNPolicyKeyLifetime) in
  let pfs : bool := Get d PIVPNPolicyPFS in
  let body :=
    {| c_Authentication := "";
       c_DhGroup := Some dhGroup;
       c_Encryption := Some encryption;
       c_KeyLifetime := keyLifetime;
       c_Name := Some name;
       c_Pfs := Some pfs |} in
  match GetOk d PIVPNPolicyAuthentication with
  | (v, true) =>
      {| c_Authentication := v;
         c_DhGroup := c_DhGroup body;
         c_Encryption := c_Encryption body;
         c_KeyLifetime := c_KeyLifetime body;
         c_Name := c_Name body;
         c_Pfs := c_Pfs body |}
  | (_, false) => body
  end.

Definition resourceIBMPIIPSecPolicyCreate : Lifecycle := fun d meta =>
  match getIBMPISession meta with
  | inr err => Ret (d, diag.FromErr err)
  | inl sess =>
      let cloudInstanceID : string := Get d PICloudInstanceId in
      let body := createBody d in
      let client := NewIBMPIVpnPolicyClient sess cloudInstanceID in
      CreateIPSecPolicyWithContext client body cloudInstanceID (fun r =>
        match r with
        | inr err =>
            LogPrintf "[DEBUG] create ipsec policy failed %v" err
              (Ret (d, diag.Errorf diag.CreateVPNPolicyOperationFailed cloudInstanceID err))
        | inl ipsecPolicy =>
            match derefID ipsecPolicy with
            | None => Panic "runtime error: invalid memory address or nil pointer dereference"
            | Some policyID =>
                let d := SetId d (cloudInstanceID ++ "/" ++ policyID) in
                resourceIBMPIIPSecPolicyRead d meta
            end
        end)
  end.

(** The body of an update: each field is assigned in turn when its
    attribute has changed. *)
Definition withName (b : IPSecPolicyUpdate) (v : string) : IPSecPolicyUpdate :=
  {| u_Authentication := u_Authentication b; u_DhGroup := u_DhGroup b;
     u_Encryption := u_Encryption b; u_KeyLifetime := u_KeyLifetime b;
     u_Name := v; u_Pfs := u_Pfs b |}.

Definition withDhGroup (b : IPSecPolicyUpdate) (v : Z) : IPSecPolicyUpdate :=
  {| u_Authentication := u_Authentication b; u_DhGroup := v;
     u_Encryption := u_Encryption b; u_KeyLifetime := u_KeyLifetime b;
     u_Name := u_Name b; u_Pfs := u_Pfs b |}.

Definition withEncryption (b : IPSecPolicyUpdate) (v : string) : IPSecPolicyUpdate :=
  {| u_Authentication := u_Authentication b; u_DhGroup := u_DhGroup b;
     u_Encryption := v; u_KeyLifetime := u_KeyLifetime b;
     u_Name := u_Name b; u_Pfs := u_Pfs b |}.

Definition withKeyLifetime (b : IPSecPolicyUpdate) (v : Z) : IPSecPolicyUpdate :=
  {| u_Authentication := u_Authentication b; u_DhGroup := u_DhGroup b;
     u_Encryption := u_Encryption b; u_KeyLifetime := v;
     u_Name := u_Name b; u_Pfs := u_Pfs b |}.

Definition withPfs (b : IPSecPolicyUpdate) (v : option bool) : IPSecPolicyUpdate :=
  {| u_Authentication := u_Authentication b; u_DhGroup := u_DhGroup b;
     u_Encryption := u_Encryption b; u_KeyLifetime := u_KeyLifetime b;
     u_Name := u_Name b; u_Pfs := v |}.

Definition withAuthentication (b : IPSecPolicyUpdate) (v : string) : IPSecPolicyUpdate :=
  {| u_Authentication := v; u_DhGroup := u_DhGroup b;
     u_Encryption := u_Encryption b; u_KeyLifetime := u_KeyLifetime b;
     u_Name := u_Name b; u_Pfs := u_Pfs b |}.

(** The body [resourceIBMPIIPSecPolicyUpdate] builds from the resource data. *)
Definition updateBody (d : PolicyData) : IPSecPolicyUpdate :=
  let body := emptyUpdate in
  let body :=
    if HasChange d PIVPNPolicyName
    then let name : string := Get d PIVPNPolicyName in withName body name
    else body in
  let body :=
    if HasChange d PIVPNPolicyDhGroup
    then let dhGroup := int64 (Get d PIVPNPolicyDhGroup) in withDhGroup body dhGroup
    else body in
  let body :=
    if HasChange d PIVPNPolicyEncryption
    then let encryption : string := Get d PIVPNPolicyEncryption in withEncryption body encryption
    else body in
  let body :=
    if HasChange d PIVPNPolicyKeyLifetime
    then let keyLifetime := int64 (Get d PIVPNPolicyKeyLifetime) in withKeyLifetime body keyLifetime
    else body in
  let body :=
    if HasChange d PIVPNPolicyPFS
    then let pfs : bool := Get d PIVPNPolicyPFS in withPfs body (Some pfs)
    else body in
  let body :=
    if HasChange d PIVPNPolicyAuthentication
    then let authentication : string := Get d PIVPNPolicyAuthentication in
         withAuthentication body authentication
    else body in
  body.

Definition resourceIBMPIIPSecPolicyUpdate : Lifecycle := fun d meta =>
  match getIBMPISession meta with
  | inr err => Ret (d, diag.FromErr err)
  | inl sess =>
      match idParts (Id d) with
      | (_, Some err) => Ret (d, diag.FromErr err)
      | (parts, None) =>
          index parts 0 (fun cloudInstanceID =>
          index parts 1 (fun policyID =>
          let client := NewIBMPIVpnPolicyClient sess cloudInstanceID in
          let body := updateBody d in
          UpdateIPSecPolicyWithContext client body policyID cloudInstanceID (fun r =>
            match r with
            | inr err =>
                Ret (d, diag.Errorf diag.UpdateVPNPolicyOperationFailed policyID err)
            | inl _ => resourceIBMPIIPSecPolicyRead d meta
            end)))
      end
  end.

Definition resourceIBMPIIPSecPolicyDelete : Lifecycle := fun d meta =>
  match getIBMPISession meta with
  | inr err => Ret (d, diag.FromErr err)
  | inl sess =>
      match idParts (Id d) with
      | (_, Some err) => Ret (d, diag.FromErr err)
      | (parts, None) =>
          index parts 0 (fun cloudInstanceID =>
          index parts 1 (fun policyID =>
          let client := NewIBMPIVpnPolicyClient sess cloudInstanceID in
          DeleteIPSecPolicyWithContext client policyID cloudInstanceID (fun err =>
            match err with
            | Some err =>
                LogPrintf "[DEBUG] delete VPN policy failed %v" err
                  (Ret (d, diag.Errorf diag.DeleteVPNPolicyOperationFailed policyID err))
            | None =>
                let d := SetId d "" in
                Ret (d, [])
            end)))
      end
  end.

(** ** The resource *)

(** [time.Minute], in nanoseconds. *)
Definition Minute : Z := 60 * 1000000000.

(** [schema.ResourceTimeout]; an operation without timeout is [None]. *)
Record ResourceTimeout : Type := {
  TimeoutCreate : option Z;
  TimeoutRead : option Z;
  TimeoutUpdate : option Z;
  TimeoutDelete : option Z
}.

(** [schema.DefaultTimeout]. *)
Definition DefaultTimeout (tx : Z) : option Z := Some tx.

(** [schema.ResourceImporter]; the file sets none of its fields. *)
Record ResourceImporter : Type := { StateContext : option (PolicyData -> ClientSession -> Prog (list PolicyData)) }.

(** [schema.Resource], with the fields the file fills. *)
Record Resource : Type := {
  CreateContext : option Lifecycle;
  ReadContext : option Lifecycle;
  UpdateContext : option Lifecycle;
  DeleteContext : option Lifecycle;
  Importer : option ResourceImporter;
  Timeouts : ResourceTimeout;
  Schema_ : Key -> Schema
}.

Definition resourceIBMPIIPSecPolicy : Resource :=
  {| CreateContext := Some resourceIBMPIIPSecPolicyCreate;
     ReadContext := Some resourceIBMPIIPSecPolicyRead;
     UpdateContext := Some resourceIBMPIIPSecPolicyUpdate;
     DeleteContext := Some resourceIBMPIIPSecPolicyDelete;
     Importer := Some {| StateContext := None |};
     Timeouts :=
       {| TimeoutCreate := DefaultTimeout (10 * Minute);
          TimeoutRead := None;
          TimeoutUpdate := DefaultTimeout (10 * Minute);
          TimeoutDelete := DefaultTimeout (10 * Minute) |};
     Schema_ := ipsecPolicySchema |}.

(** The four lifecycle operations a resource can register, and the ones a
    given resource does register. *)
Inductive Operation : Type := OpCreate | OpRead | OpUpdate | OpDelete.

Definition entryPoint (r : Resource) (op : Operation) : option Lifecycle :=
  match op with
  | OpCreate => CreateContext r
  | OpRead => ReadContext r
  | OpUpdate => UpdateContext r
  | OpDelete => DeleteContext r
  end.

(** The lifecycle function of the file for each operation. *)
Definition lifecycle (op : Operation) : Lifecycle :=
  match op with
  | OpCreate => resourceIBMPIIPSecPolicyCreate
  | OpRead => resourceIBMPIIPSecPolicyRead
  | OpUpdate => resourceIBMPIIPSecPolicyUpdate
  | OpDelete => resourceIBMPIIPSecPolicyDelete
  end.

(** The client operation a request belongs to. *)
Definition operationOf (q : Request) : Operation :=
  match q with
  | ReqCreate _ _ _ => OpCreate
  | ReqGet _ _ _ => OpRead
  | ReqUpdate _ _ _ _ => OpUpdate
  | ReqDelete _ _ _ => OpDelete
  end.

(** ** What the properties below speak about *)

(** The six attributes an update can carry. *)
Definition updatable : list Key :=
  [PIVPNPolicyName; PIVPNPolicyDhGroup; PIVPNPolicyEncryption;
   PIVPNPolicyKeyLifetime; PIVPNPolicyPFS; PIVPNPolicyAuthentication].

(** Whether a lifecycle function gets as far as the remote: the session is
    there and, for the three functions that parse the stored identifier, the
    parse succeeds. *)
Definition reachesRemote (op : Operation) (d : PolicyData) (meta : ClientSession) : bool :=
  match getIBMPISession meta with
  | inr _ => false
  | inl _ =>
      match op with
      | OpCreate => true
      | _ => match snd (idParts (Id d)) with None => true | Some _ => false end
      end
  end.

(** The client a request goes through, and the cloud instance and policy it
    names (a create request names no policy). *)
Definition clientOf (q : Request) : IBMPIVpnPolicyClient :=
  match q with
  | ReqCreate c _ _ => c
  | ReqGet c _ _ => c
  | ReqUpdate c _ _ _ => c
  | ReqDelete c _ _ => c
  end.

Definition cloudInstanceOf (q : Request) : string :=
  match q with
  | ReqCreate _ _ cid => cid
  | ReqGet _ _ cid => cid
  | ReqUpdate _ _ _ cid => cid
  | ReqDelete _ _ cid => cid
  end.

Definition policyOf (q : Request) : option string :=
  match q with
  | ReqCreate _ _ _ => None
  | ReqGet _ pid _ => Some pid
  | ReqUpdate _ _ pid _ => Some pid
  | ReqDelete _ pid _ => Some pid
  end.

(** The identifier [cloudInstanceID/policyID] round-trips when every read,
    update and delete of a resource that stores it, once past session setup,
    turns first to the remote with a request through the client of
    [cloudInstanceID], for that cloud instance and that policy. *)
Definition roundTrips (cloudInstanceID policyID : string) : Prop :=
  forall (op : Operation) (d : PolicyData) (meta : ClientSession) (sess : IBMPISession)
         (W : Type) (api : VpnPolicyAPI W) (w : W),
    op <> OpCreate ->
    getIBMPISession meta = inl sess ->
    Id d = cloudInstanceID ++ "/" ++ policyID ->
    exists q rest,
      requests (run api (lifecycle op d meta) w) = q :: rest /\
      operationOf q = op /\
      clientOf q = NewIBMPIVpnPolicyClient sess cloudInstanceID /\
      cloudInstanceOf q = cloudInstanceID /\
      policyOf q = Some policyID.

(** A lifecycle run is a single exchange when the remote saw exactly one
    request. *)
Definition singleExchange (op : Operation) (d : PolicyData) (meta : ClientSession)
    (W : Type) (api : VpnPolicyAPI W) (w : W) : Prop :=
  length (exchanges (run api (lifecycle op d meta) w)) = 1%nat.

(** ** Sample data for the examples *)

(** A level of policy data from one optional value per key. *)
Definition policyLevel (cloudInstanceID name : option string) (dhGroup : option Z)
    (encryption : option string) (keyLifetime : option Z) (pfs : option bool)
    (authentication policyId : option string) : Level ipsecPolicySchema :=
  fun k =>
    match k return option (goType (Type_ (ipsecPolicySchema k))) with
    | PICloudInstanceId => cloudInstanceID
    | PIVPNPolicyName => name
    | PIVPNPolicyDhGroup => dhGroup
    | PIVPNPolicyEncryption => encryption
    | PIVPNPolicyKeyLifetime => keyLifetime
    | PIVPNPolicyPFS => pfs
    | PIVPNPolicyAuthentication => authentication
    | PIPolicyId => policyId
    end.

(** A remote that plays back a script: each operation takes the next answer
    of the script when it has the right shape, and fails otherwise. *)
Definition scriptedAPI : VpnPolicyAPI (list Response) :=
  let policy w :=
    match w with
    | RespPolicy r :: w' => (r, w')
    | _ => (inr "no answer", w)
    end in
  {| doCreate := fun _ _ _ w => policy w;
     doGet := fun _ _ _ w => policy w;
     doUpdate := fun _ _ _ _ w => policy w;
     doDelete := fun _ _ _ w =>
       match w with
       | RespDelete r :: w' => (r, w')
       | _ => (Some "no answer", w)
       end |}.

(** A remote without state that refuses every request. *)
Definition refusingAPI : VpnPolicyAPI unit :=
  {| doCreate := fun _ _ _ w => (inr "refused", w);
     doGet := fun _ _ _ w => (inr "refused", w);
     doUpdate := fun _ _ _ _ w => (inr "refused", w);
     doDelete := fun _ _ _ w => (Some "refused", w) |}.

Definition sampleSession : ClientSession :=
  {| getIBMPISession := inl {| sessionHandle := "session" |}; otherSessions := "" |}.

Definition brokenSession : ClientSession :=
  {| getIBMPISession := inr "no credentials"; otherSessions := "" |}.



(** A configuration every validator accepts; the authentication is left out. *)
Definition sampleConfig : ResourceConfig ipsecPolicySchema :=
  policyLevel (Some "cloud-1") (Some "policy-a") (Some 14) (Some "aes-256-cbc")
    (Some 28800) (Some true) None None.

(** The resource data of that configuration when it is created: no prior
    state, the planned values with the default authentication. *)
Definition sampleNew : PolicyData :=
  {| rd_id := "";
     rd_state := empty_level ipsecPolicySchema;
     rd_diff := policyLevel (Some "cloud-1") (Some "policy-a") (Some 14)
                  (Some "aes-256-cbc") (Some 28800) (Some true) (Some "none") None;
     rd_set := empty_level ipsecPolicySchema |}.

(** The policy the remote holds for it. *)
Definition samplePolicy : IPSecPolicy :=
  Some {| ptrID := Some "p-1"; ptrName := Some "policy-a"; ptrDhGroup := Some 14;
          ptrEncryption := Some "aes-256-cbc"; ptrKeyLifetime := Some 28800;
          ptrPfs := Some true; ptrAuthentication := Some "none" |}.

(** The same policy as an answer that leaves the ID out. *)
Definition policyWithoutID : IPSecPolicy :=
  Some {| ptrID := None; ptrName := Some "policy-a"; ptrDhGroup := Some 14;
          ptrEncryption := Some "aes-256-cbc"; ptrKeyLifetime := Some 28800;
          ptrPfs := Some true; ptrAuthentication := Some "none" |}.

(** The resource data of the created policy, with a plan that renames it and
    turns perfect forward secrecy off. *)
Definition sampleStored : PolicyData :=
  {| rd_id := "cloud-1/p-1";
     rd_state := policyLevel (Some "cloud-1") (Some "policy-a") (Some 14)
                   (Some "aes-256-cbc") (Some 28800) (Some true) (Some "none") (Some "p-1");
     rd_diff := policyLevel None (Some "policy-b") None None None (Some false) None None;
     rd_set := empty_level ipsecPolicySchema |}.

(** Resource data whose cloud instance identifier holds a "/". *)
Definition slashNew : PolicyData :=
  {| rd_id := "";
     rd_state := empty_level ipsecPolicySchema;
     rd_diff := policyLevel (Some "a/b") (Some "policy-a") (Some 14)
                  (Some "aes-256-cbc") (Some 28800) (Some true) (Some "none") None;
     rd_set := empty_level ipsecPolicySchema |}.

Definition slashStored : PolicyData :=
  {| rd_id := "a/b/p-1";
     rd_state := empty_level ipsecPolicySchema;
     rd_diff := empty_level ipsecPolicySchema;
     rd_set := empty_level ipsecPolicySchema |}.

(** ** Answers the code cannot use *)

(** The answers on which a lifecycle function panics: a create answered
    without error by a policy that is [nil] or has no ID (the function takes
    [*ipsecPolicy.ID]), and a get answered without error by a [nil] policy
    (the function selects the fields of [ipsecPolicy]).  The policy an update
    answers with is dropped, and a delete answers with no policy. *)
Definition unusable (x : Exchange) : bool :=
  match x with
  | (ReqCreate _ _ _, RespPolicy (inl p)) =>
      match derefID p with None => true | Some _ => false end
  | (ReqGet _ _ _, RespPolicy (inl None)) => true
  | _ => false
  end.

(** ** What a failed exchange leaves behind *)

(** The format a lifecycle function hands to [diag.Errorf] after a failed
    request, by the operation that failed: the create, update and delete
    formats for their operations, and, as [resourceIBMPIIPSecPolicyRead] has
    it, the cloud connection format for a failed get. *)
Definition failureFormat (q : Request) : diag.ErrFormat :=
  match q with
  | ReqCreate _ _ _ => diag.CreateVPNPolicyOperationFailed
  | ReqGet _ _ _ => diag.GetCloudConnectionOperationFailed
  | ReqUpdate _ _ _ _ => diag.UpdateVPNPolicyOperationFailed
  | ReqDelete _ _ _ => diag.DeleteVPNPolicyOperationFailed
  end.

(** The identifier that goes with the format: the cloud instance for a
    failed create, the policy for the three others. *)
Definition failureSubject (q : Request) : string :=
  match q with
  | ReqCreate _ _ cid => cid
  | ReqGet _ pid _ => pid
  | ReqUpdate _ _ pid _ => pid
  | ReqDelete _ pid _ => pid
  end.

(** The line [log.Printf] writes for an exchange: one for a failed create,
    get or delete, none for a failed update and none for a success. *)
Definition logLine (x : Exchange) : list (string * error) :=
  match responseError (snd x), fst x with
  | Some e, ReqCreate _ _ _ => [("[DEBUG] create ipsec policy failed %v", e)]
  | Some e, ReqGet _ _ _ => [("[DEBUG] get VPN policy failed %v", e)]
  | Some e, ReqDelete _ _ _ => [("[DEBUG] delete VPN policy failed %v", e)]
  | Some _, ReqUpdate _ _ _ _ => []
  | None, _ => []
  end.


(** The resource data the framework hands to [Create] for a configuration:
    no identifier, no prior state, the planned values. *)
Definition newResource (c : ResourceConfig ipsecPolicySchema) : PolicyData :=
  {| rd_id := "";
     rd_state := empty_level ipsecPolicySchema;
     rd_diff := planned c;
     rd_set := empty_level ipsecPolicySchema |}.


(** * Properties *)

(** ** Splitting at a separator *)

Section Split.

Variable sep : ascii.

Lemma Split_not_nil (s : string) : strings.Split s sep <> [].
Proof.
  destruct s as [|c s]; simpl; [discriminate|].
  destruct (Ascii.eqb c sep); [discriminate|].
  destruct (strings.Split s sep); discriminate.
Qed.

(** A string without separator is its own single piece. *)
Lemma Split_without_sep (s : string) :
  strings.Contains s sep = false -> strings.Split s sep = [s].
Proof.
  induction s as [|c s IH]; simpl; [reflexivity|].
  destruct (Ascii.eqb c sep); [discriminate|].
  intros H. rewrite (IH H). reflexivity.
Qed.

(** The first separator ends the first piece. *)
Lemma Split_at_first_sep (a b : string) :
  strings.Contains a sep = false ->
  strings.Split (a ++ String sep b) sep = a :: strings.Split b sep.
Proof.
  induction a as [|c a IH]; simpl.
  - intros _. rewrite Ascii.eqb_refl. reflexivity.
  - destruct (Ascii.eqb c sep); [discriminate|].
    intros H. rewrite (IH H). reflexivity.
Qed.

Lemma Contains_app_sep (a b : string) :
  strings.Contains (a ++ String sep b) sep = true.
Proof.
  induction a as [|c a IH]; simpl.
  - rewrite Ascii.eqb_refl. reflexivity.
  - destruct (Ascii.eqb c sep); [reflexivity | exact IH].
Qed.

(** No piece holds the separator. *)
Lemma Split_pieces_without_sep (s : string) :
  Forall (fun piece => strings.Contains piece sep = false) (strings.Split s sep).
Proof.
  induction s as [|c s IH]; simpl.
  - constructor; [reflexivity | constructor].
  - destruct (Ascii.eqb c sep) eqn:E.
    + constructor; [reflexivity | exact IH].
    + destruct (strings.Split s sep) as [|piece rest].
      * constructor; [simpl; rewrite E; reflexivity | constructor].
      * inversion IH; subst. constructor; [simpl; rewrite E; assumption | assumption].
Qed.

(** A string with a separator has at least two pieces. *)
Lemma Split_with_sep (s : string) :
  strings.Contains s sep = true ->
  exists a b rest, strings.Split s sep = a :: b :: rest.
Proof.
  induction s as [|c s IH]; simpl; [discriminate|].
  destruct (Ascii.eqb c sep).
  - intros _. destruct (strings.Split s sep) as [|b rest] eqn:E.
    + exfalso. exact (Split_not_nil _ E).
    + exists EmptyString, b, rest. reflexivity.
  - intros H. destruct (IH H) as (a & b & rest & E). rewrite E.
    exists (String c a), b, rest. reflexivity.
Qed.

End Split.

(** ** The identifier helper *)

(** A successful [idParts] gives at least two parts, so that the callers'
    [parts[0]] and [parts[1]] are in range. *)
Lemma idParts_ok_two (id : string) (parts : list string) :
  idParts id = (parts, None) -> exists a b rest, parts = a :: b :: rest.
Proof.
  unfold idParts. destruct (strings.Contains id strings.slash) eqn:E; [|discriminate].
  intros H. injection H as <-. exact (Split_with_sep _ _ E).
Qed.

Lemma idParts_cases (id : string) :
  (exists a b rest, idParts id = (a :: b :: rest, None)) \/
  (exists parts err, idParts id = (parts, Some err)).
Proof.
  destruct (idParts id) as [parts [err|]] eqn:E.
  - right. exists parts, err. reflexivity.
  - left. destruct (idParts_ok_two _ E) as (a & b & rest & ->).
    exists a, b, rest. reflexivity.
Qed.

(** An identifier composed of two parts free of "/" parses into them. *)
Lemma idParts_compose (cloudInstanceID policyID : string) :
  strings.Contains cloudInstanceID strings.slash = false ->
  strings.Contains policyID strings.slash = false ->
  idParts (cloudInstanceID ++ "/" ++ policyID) = ([cloudInstanceID; policyID], None).
Proof.
  intros Hc Hp. unfold idParts.
  change (cloudInstanceID ++ "/" ++ policyID)
    with (cloudInstanceID ++ String strings.slash policyID).
  rewrite Contains_app_sep, (Split_at_first_sep _ _ _ Hc), (Split_without_sep _ _ Hp).
  reflexivity.
Qed.

(** A composed identifier always parses, whatever its two parts. *)
Lemma idParts_compose_ok (cloudInstanceID policyID : string) :
  exists a b rest,
    idParts (cloudInstanceID ++ "/" ++ policyID) = (a :: b :: rest, None).
Proof.
  unfold idParts.
  change (cloudInstanceID ++ "/" ++ policyID)
    with (cloudInstanceID ++ String strings.slash policyID).
  rewrite Contains_app_sep.
  destruct (Split_with_sep _ _ (Contains_app_sep strings.slash cloudInstanceID policyID))
    as (a & b & rest & E).
  rewrite E. exists a, b, rest. reflexivity.
Qed.

(** The parts of a parsed identifier hold no "/". *)
Lemma idParts_parts_without_slash (id : string) (parts : list string) :
  idParts id = (parts, None) ->
  Forall (fun part => strings.Contains part strings.slash = false) parts.
Proof.
  unfold idParts. destruct (strings.Contains id strings.slash); [|discriminate].
  intros H. injection H as <-. apply Split_pieces_without_sep.
Qed.

(** ** Runs of the lifecycle functions *)

(** Case analysis on how far a lifecycle function gets before it calls the
    remote: the session, then the stored identifier. *)
Ltac on_session meta :=
  let sess := fresh "sess" in
  let err := fresh "err" in
  let Hsess := fresh "Hsess" in
  destruct (getIBMPISession meta) as [sess|err] eqn:Hsess.

Ltac on_id d :=
  let a := fresh "cid" in
  let b := fresh "pid" in
  let rest := fresh "rest" in
  let parts := fresh "parts" in
  let err := fresh "err" in
  let Hid := fresh "Hid" in
  destruct (idParts_cases (Id d)) as [(a & b & rest & Hid)|(parts & err & Hid)];
  rewrite Hid.

(** How [Read] runs: without session or with an identifier that does not
    parse it returns at once; otherwise it asks the remote for the policy
    once, and returns on a policy or an error, and panics on a [nil] policy
    answered without error. *)
Lemma run_Read (d : PolicyData) (meta : ClientSession) (W : Type)
    (api : VpnPolicyAPI W) (w : W) :
  let r := run api (resourceIBMPIIPSecPolicyRead d meta) w in
  (reachesRemote OpRead d meta = false /\
   exists err, r = finished (d, diag.FromErr err) [] w) \/
  (reachesRemote OpRead d meta = true /\
   exists sess cid pid rest,
     getIBMPISession meta = inl sess /\
     idParts (Id d) = (cid :: pid :: rest, None) /\
     let client := NewIBMPIVpnPolicyClient sess cid in
     let q := ReqGet client pid cid in
     ((exists s w',
         doGet api client pid cid w = (inl (Some s), w') /\
         r = withExchange (q, RespPolicy (inl (Some s)))
               (finished (readBack d (Some s), []) [] w')) \/
      (exists w',
         doGet api client pid cid w = (inl None, w') /\
         r = withExchange (q, RespPolicy (inl None)) (panicked w')) \/
      (exists e w',
         doGet api client pid cid w = (inr e, w') /\
         r = withExchange (q, RespPolicy (inr e))
               (finished (d, diag.Errorf diag.GetCloudConnectionOperationFailed pid e)
                  [("[DEBUG] get VPN policy failed %v", e)] w')))).
Proof.
  unfold reachesRemote, resourceIBMPIIPSecPolicyRead.
  on_session meta.
  - on_id d; simpl.
    + right. split; [reflexivity|].
      exists sess, cid, pid, rest. split; [reflexivity|]. split; [reflexivity|].
      destruct (doGet api (NewIBMPIVpnPolicyClient sess cid) pid cid w) as [[[s|]|e] w'] eqn:E.
      * left. exists s, w'. split; reflexivity.
      * right. left. exists w'. split; reflexivity.
      * right. right. exists e, w'. split; reflexivity.
    + left. split; [reflexivity|]. exists err. reflexivity.
  - left. split; [reflexivity|]. exists err. reflexivity.
Qed.

(** How [Delete] runs: as [Read] does, with the delete operation; the
    identifier is cleared on the one path where the remote reported no error. *)
Lemma run_Delete (d : PolicyData) (meta : ClientSession) (W : Type)
    (api : VpnPolicyAPI W) (w : W) :
  let r := run api (resourceIBMPIIPSecPolicyDelete d meta) w in
  (reachesRemote OpDelete d meta = false /\
   exists err, r = finished (d, diag.FromErr err) [] w) \/
  (reachesRemote OpDelete d meta = true /\
   exists sess cid pid rest,
     getIBMPISession meta = inl sess /\
     idParts (Id d) = (cid :: pid :: rest, None) /\
     let client := NewIBMPIVpnPolicyClient sess cid in
     let q := ReqDelete client pid cid in
     ((exists w',
         doDelete api client pid cid w = (None, w') /\
         r = withExchange (q, RespDelete None) (finished (SetId d "", []) [] w')) \/
      (exists e w',
         doDelete api client pid cid w = (Some e, w') /\
         r = withExchange (q, RespDelete (Some e))
               (finished (d, diag.Errorf diag.DeleteVPNPolicyOperationFailed pid e)
                  [("[DEBUG] delete VPN policy failed %v", e)] w')))).
Proof.
  unfold reachesRemote, resourceIBMPIIPSecPolicyDelete.
  on_session meta.
  - on_id d; simpl.
    + right. split; [reflexivity|].
      exists sess, cid, pid, rest. split; [reflexivity|]. split; [reflexivity|].
      destruct (doDelete api (NewIBMPIVpnPolicyClient sess cid) pid cid w) as [[e|] w'] eqn:E.
      * right. exists e, w'. split; reflexivity.
      * left. exists w'. split; reflexivity.
    + left. split; [reflexivity|]. exists err. reflexivity.
  - left. split; [reflexivity|]. exists err. reflexivity.
Qed.

(** How [Create] runs: without session it returns at once; otherwise it
    sends the create request, returns on an error, on a policy with an ID
    stores the composed identifier and goes on as [Read], and panics on a
    policy without ID. *)
Lemma run_Create (d : PolicyData) (meta : ClientSession) (W : Type)
    (api : VpnPolicyAPI W) (w : W) :
  let r := run api (resourceIBMPIIPSecPolicyCreate d meta) w in
  (reachesRemote OpCreate d meta = false /\
   exists err, r = finished (d, diag.FromErr err) [] w) \/
  (reachesRemote OpCreate d meta = true /\
   exists sess,
     getIBMPISession meta = inl sess /\
     let cid : string := Get d PICloudInstanceId in
     let client := NewIBMPIVpnPolicyClient sess cid in
     let q := ReqCreate client (createBody d) cid in
     ((exists p policyID w',
         doCreate api client (createBody d) cid w = (inl p, w') /\
         derefID p = Some policyID /\
         r = withExchange (q, RespPolicy (inl p))
               (run api (resourceIBMPIIPSecPolicyRead (SetId d (cid ++ "/" ++ policyID)) meta)
                  w')) \/
      (exists p w',
         doCreate api client (createBody d) cid w = (inl p, w') /\
         derefID p = None /\
         r = withExchange (q, RespPolicy (inl p)) (panicked w')) \/
      (exists e w',
         doCreate api client (createBody d) cid w = (inr e, w') /\
         r = withExchange (q, RespPolicy (inr e))
               (finished (d, diag.Errorf diag.CreateVPNPolicyOperationFailed cid e)
                  [("[DEBUG] create ipsec policy failed %v", e)] w')))).
Proof.
  unfold reachesRemote, resourceIBMPIIPSecPolicyCreate.
  on_session meta.
  - right. split; [reflexivity|]. exists sess. split; [reflexivity|]. simpl.
    destruct (doCreate api (NewIBMPIVpnPolicyClient sess (Get d PICloudInstanceId))
                (createBody d) (Get d PICloudInstanceId) w) as [[p|e] w'] eqn:E.
    + destruct (derefID p) as [policyID|] eqn:Hp.
      * left. exists p, policyID, w'. split; [reflexivity|]. split; [exact Hp|].
        reflexivity.
      * right. left. exists p, w'. split; [reflexivity|]. split; [exact Hp|].
        reflexivity.
    + right. right. exists e, w'. split; reflexivity.
  - left. split; [reflexivity|]. exists err. reflexivity.
Qed.

(** How [Update] runs: as [Read] does up to the request, which carries the
    update body; on an error it returns, on a policy it goes on as [Read] on
    the same resource data. *)
Lemma run_Update (d : PolicyData) (meta : ClientSession) (W : Type)
    (api : VpnPolicyAPI W) (w : W) :
  let r := run api (resourceIBMPIIPSecPolicyUpdate d meta) w in
  (reachesRemote OpUpdate d meta = false /\
   exists err, r = finished (d, diag.FromErr err) [] w) \/
  (reachesRemote OpUpdate d meta = true /\
   exists sess cid pid rest,
     getIBMPISession meta = inl sess /\
     idParts (Id d) = (cid :: pid :: rest, None) /\
     let client := NewIBMPIVpnPolicyClient sess cid in
     let q := ReqUpdate client (updateBody d) pid cid in
     ((exists p w',
         doUpdate api client (updateBody d) pid cid w = (inl p, w') /\
         r = withExchange (q, RespPolicy (inl p))
               (run api (resourceIBMPIIPSecPolicyRead d meta) w')) \/
      (exists e w',
         doUpdate api client (updateBody d) pid cid w = (inr e, w') /\
         r = withExchange (q, RespPolicy (inr e))
               (finished (d, diag.Errorf diag.UpdateVPNPolicyOperationFailed pid e) [] w')))).
Proof.
  unfold reachesRemote, resourceIBMPIIPSecPolicyUpdate.
  on_session meta.
  - on_id d; simpl.
    + right. split; [reflexivity|].
      exists sess, cid, pid, rest. split; [reflexivity|]. split; [reflexivity|].
      destruct (doUpdate api (NewIBMPIVpnPolicyClient sess cid) (updateBody d) pid cid w)
        as [[p|e] w'] eqn:E.
      * left. exists p, w'. split; reflexivity.
      * right. exists e, w'. split; reflexivity.
    + left. split; [reflexivity|]. exists err. reflexivity.
  - left. split; [reflexivity|]. exists err. reflexivity.
Qed.

(** What each lifecycle function asks of the remote last, as [Read] does it:
    the requests of a run of [Read] are at most one, a get. *)
Lemma Read_requests (d : PolicyData) (meta : ClientSession) (W : Type)
    (api : VpnPolicyAPI W) (w : W) :
  requests (run api (resourceIBMPIIPSecPolicyRead d meta) w) = [] \/
  exists client pid cid,
    requests (run api (resourceIBMPIIPSecPolicyRead d meta) w) = [ReqGet client pid cid].
Proof.
  pose proof (run_Read d meta api w) as H. cbv zeta in H.
  destruct H as [[_ [err ->]]|[_ (sess & cid & pid & rest & _ & _ &
                                 [(p & w' & _ & ->)|[(w' & _ & ->)|(e & w' & _ & ->)]])]].
  - left. reflexivity.
  - right. eexists _, _, _. reflexivity.
  - right. eexists _, _, _. reflexivity.
  - right. eexists _, _, _. reflexivity.
Qed.

(** ** State synchronization on read *)



(** ** Delete *)

(** C8. [Delete] always returns, in one of three ways.  The remote delete
    succeeded: no diagnostic, and the identifier is cleared.  The remote
    delete failed with an error, whatever it is (a not-found answer as any
    other): a diagnostic made from that error, and the resource data
    untouched.  Session setup or identifier parsing failed: no request, a
    diagnostic, the resource data untouched.  So a stored, non-empty
    identifier is cleared if and only if the remote delete succeeded. *)
Theorem C8_delete_atomicity (d : PolicyData) (meta : ClientSession)
    (W : Type) (api : VpnPolicyAPI W) (w : W) :
  let r := run api (resourceIBMPIIPSecPolicyDelete d meta) w in
  exists d' ds,
    result r = Some (d', ds) /\
    ((responses r = [RespDelete None] /\ ds = [] /\ d' = SetId d "") \/
     (exists e pid,
        responses r = [RespDelete (Some e)] /\
        ds = diag.Errorf diag.DeleteVPNPolicyOperationFailed pid e /\ d' = d) \/
     (responses r = [] /\ reachesRemote OpDelete d meta = false /\
      exists err, ds = diag.FromErr err /\ d' = d)) /\
    (ds = [] <-> responses r = [RespDelete None]) /\
    (Id d <> "" -> (Id d' = "" <-> responses r = [RespDelete None])).
Proof.
  pose proof (run_Delete d meta api w) as H. cbv zeta in *.
  destruct H as [[Hn [err ->]]|[_ (sess & cid & pid & rest & _ & _ & [(w' & _ & ->)|(e & w' & _ & ->)])]];
    simpl.
  - exists d, (diag.FromErr err). split; [reflexivity|]. split; [|split].
    + right. right. repeat split; [exact Hn|]. exists err. split; reflexivity.
    + split; discriminate.
    + intros Hd. split; [intros E; contradiction | discriminate].
  - exists (SetId d ""), []. split; [reflexivity|]. split; [|split].
    + left. repeat split.
    + split; reflexivity.
    + intros _. split; reflexivity.
  - exists d, (diag.Errorf diag.DeleteVPNPolicyOperationFailed pid e).
    split; [reflexivity|]. split; [|split].
    + right. left. exists e, pid. repeat split.
    + split; discriminate.
    + intros Hd. split; [intros E; contradiction | discriminate].
Qed.

(** A policy the remote no longer has: the not-found answer comes back as
    a diagnostic, is logged, and the identifier stays. *)
Example delete_of_missing_policy_fails :
  let r := run scriptedAPI (resourceIBMPIIPSecPolicyDelete sampleStored sampleSession)
             [RespDelete (Some "404 Not Found")] in
  option_map (fun x => (Id (fst x), snd x)) (result r)
    = Some ("cloud-1/p-1",
            diag.Errorf diag.DeleteVPNPolicyOperationFailed "p-1" "404 Not Found") /\
  requests r
    = [ReqDelete (NewIBMPIVpnPolicyClient {| sessionHandle := "session" |} "cloud-1")
         "p-1" "cloud-1"] /\
  logged r = [("[DEBUG] delete VPN policy failed %v", "404 Not Found")].
Proof.
  vm_compute. repeat split.
Qed.

(** ** The request bodies *)

(** The five required fields of a create body are the configured values,
    with or without authentication. *)
Lemma createBody_fields (d : PolicyData) :
  c_DhGroup (createBody d) = Some (int64 (Get d PIVPNPolicyDhGroup)) /\
  c_Encryption (createBody d) = Some (Get d PIVPNPolicyEncryption) /\
  c_KeyLifetime (createBody d) = int64 (Get d PIVPNPolicyKeyLifetime) /\
  c_Name (createBody d) = Some (Get d PIVPNPolicyName) /\
  c_Pfs (createBody d) = Some (Get d PIVPNPolicyPFS).
Proof.
  unfold createBody.
  destruct (GetOk d PIVPNPolicyAuthentication) as [v [|]]; simpl; repeat split.
Qed.

(** C6. Once the session is there, [Create] sends first a create request,
    for the configured cloud instance, whose body carries the configured DH
    group, encryption, key lifetime, name and PFS as they are; the two
    integers go through the conversion to 64 bits, which keeps their value. *)
Theorem C6_create_body_maps_fields (d : PolicyData) (meta : ClientSession)
    (sess : IBMPISession) (W : Type) (api : VpnPolicyAPI W) (w : W) :
  getIBMPISession meta = inl sess ->
  exists body rest,
    requests (run api (resourceIBMPIIPSecPolicyCreate d meta) w)
      = ReqCreate (NewIBMPIVpnPolicyClient sess (Get d PICloudInstanceId)) body
          (Get d PICloudInstanceId) :: rest /\
    c_DhGroup body = Some (Get d PIVPNPolicyDhGroup) /\
    c_Encryption body = Some (Get d PIVPNPolicyEncryption) /\
    c_KeyLifetime body = Get d PIVPNPolicyKeyLifetime /\
    c_Name body = Some (Get d PIVPNPolicyName) /\
    c_Pfs body = Some (Get d PIVPNPolicyPFS).
Proof.
  intros Hs.
  pose proof (run_Create d meta api w) as H. cbv zeta in H.
  destruct H as [[Hn _]|[_ (sess' & Hs' &
                             [(p & policyID & w' & _ & _ & ->)
                             |[(p & w' & _ & _ & ->)|(e & w' & _ & ->)]])]].
  - unfold reachesRemote in Hn. rewrite Hs in Hn. discriminate.
  - rewrite Hs in Hs'. injection Hs' as <-.
    eexists (createBody d), _. split; [reflexivity|]. apply createBody_fields.
  - rewrite Hs in Hs'. injection Hs' as <-.
    eexists (createBody d), _. split; [reflexivity|]. apply createBody_fields.
  - rewrite Hs in Hs'. injection Hs' as <-.
    eexists (createBody d), _. split; [reflexivity|]. apply createBody_fields.
Qed.

Lemma C6_create_body_maps_fields_witness :
  exists body rest,
    requests (run refusingAPI (resourceIBMPIIPSecPolicyCreate sampleNew sampleSession) tt)
      = ReqCreate (NewIBMPIVpnPolicyClient {| sessionHandle := "session" |} "cloud-1") body
          "cloud-1" :: rest /\
    c_DhGroup body = Some 14 /\
    c_Encryption body = Some "aes-256-cbc" /\
    c_KeyLifetime body = 28800 /\
    c_Name body = Some "policy-a" /\
    c_Pfs body = Some true.
Proof.
  apply (@C6_create_body_maps_fields sampleNew sampleSession
           {| sessionHandle := "session" |} unit refusingAPI tt).
  reflexivity.
Defined.

(** Each field of the update body is the new value of its attribute when
    the attribute has changed and the zero value of the field otherwise. *)
Lemma updateBody_fields (d : PolicyData) :
  u_Name (updateBody d)
    = (if HasChange d PIVPNPolicyName then Get d PIVPNPolicyName else "") /\
  u_DhGroup (updateBody d)
    = (if HasChange d PIVPNPolicyDhGroup then Get d PIVPNPolicyDhGroup else 0) /\
  u_Encryption (updateBody d)
    = (if HasChange d PIVPNPolicyEncryption then Get d PIVPNPolicyEncryption else "") /\
  u_KeyLifetime (updateBody d)
    = (if HasChange d PIVPNPolicyKeyLifetime then Get d PIVPNPolicyKeyLifetime else 0) /\
  u_Pfs (updateBody d)
    = (if HasChange d PIVPNPolicyPFS then Some (Get d PIVPNPolicyPFS) else None) /\
  u_Authentication (updateBody d)
    = (if HasChange d PIVPNPolicyAuthentication then Get d PIVPNPolicyAuthentication else "").
Proof.
  unfold updateBody.
  destruct (HasChange d PIVPNPolicyName), (HasChange d PIVPNPolicyDhGroup),
    (HasChange d PIVPNPolicyEncryption), (HasChange d PIVPNPolicyKeyLifetime),
    (HasChange d PIVPNPolicyPFS), (HasChange d PIVPNPolicyAuthentication);
    repeat split.
Qed.

(** C9. The body of every update request that [Update] sends holds, for each
    of the six configurable attributes, the new value when the attribute has
    changed and the zero value of the field when it has not; with no
    attribute changed the body is the empty one. *)
Theorem C9_update_sends_changed_fields (d : PolicyData) (meta : ClientSession)
    (W : Type) (api : VpnPolicyAPI W) (w : W)
    (client : IBMPIVpnPolicyClient) (body : IPSecPolicyUpdate) (pid cid : string) :
  In (ReqUpdate client body pid cid)
     (requests (run api (resourceIBMPIIPSecPolicyUpdate d meta) w)) ->
  u_Name body
    = (if HasChange d PIVPNPolicyName then Get d PIVPNPolicyName else "") /\
  u_DhGroup body
    = (if HasChange d PIVPNPolicyDhGroup then Get d PIVPNPolicyDhGroup else 0) /\
  u_Encryption body
    = (if HasChange d PIVPNPolicyEncryption then Get d PIVPNPolicyEncryption else "") /\
  u_KeyLifetime body
    = (if HasChange d PIVPNPolicyKeyLifetime then Get d PIVPNPolicyKeyLifetime else 0) /\
  u_Pfs body
    = (if HasChange d PIVPNPolicyPFS then Some (Get d PIVPNPolicyPFS) else None) /\
  u_Authentication body
    = (if HasChange d PIVPNPolicyAuthentication then Get d PIVPNPolicyAuthentication else "") /\
  ((forall k, In k updatable -> HasChange d k = false) -> body = emptyUpdate).
Proof.
  intros Hin.
  assert (body = updateBody d) as ->.
  { pose proof (run_Update d meta api w) as H. cbv zeta in H.
    destruct H as [[_ [err E]]|[_ (sess & c & p & rest & _ & _ & [(pol & w' & _ & E)|(e & w' & _ & E)])]];
      rewrite E in Hin; simpl in Hin.
    - contradiction.
    - destruct Hin as [Hq|Hin]; [injection Hq; congruence|].
      change (In (ReqUpdate client body pid cid)
                (requests (run api (resourceIBMPIIPSecPolicyRead d meta) w'))) in Hin.
      destruct (Read_requests d meta api w') as [R|(c' & p' & i' & R)];
        rewrite R in Hin; simpl in Hin.
      + contradiction.
      + destruct Hin as [Hq|[]]. discriminate Hq.
    - destruct Hin as [Hq|[]]. injection Hq; congruence. }
  pose proof (updateBody_fields d) as (H1 & H2 & H3 & H4 & H5 & H6).
  repeat (split; [assumption|]).
  intros Hno. unfold updateBody.
  rewrite !Hno by (simpl; tauto). reflexivity.
Qed.

Lemma C9_update_sends_changed_fields_witness :
  u_Name (updateBody sampleStored) = "policy-b" /\
  u_DhGroup (updateBody sampleStored) = 0 /\
  u_Encryption (updateBody sampleStored) = "" /\
  u_KeyLifetime (updateBody sampleStored) = 0 /\
  u_Pfs (updateBody sampleStored) = Some false /\
  u_Authentication (updateBody sampleStored) = "" /\
  ((forall k, In k updatable -> HasChange sampleStored k = false) ->
   updateBody sampleStored = emptyUpdate).
Proof.
  apply (@C9_update_sends_changed_fields sampleStored sampleSession unit refusingAPI tt
           (NewIBMPIVpnPolicyClient {| sessionHandle := "session" |} "cloud-1")
           (updateBody sampleStored) "p-1" "cloud-1").
  left. reflexivity.
Defined.

(** ** No state of its own *)






(** ** The exchanges of each lifecycle function *)

(** [Read] on resource data whose identifier was just composed gets to the
    remote whenever the session is there. *)
Lemma Read_reaches_composed (d : PolicyData) (meta : ClientSession)
    (sess : IBMPISession) (cid pid : string) :
  getIBMPISession meta = inl sess ->
  reachesRemote OpRead (SetId d (cid ++ "/" ++ pid)) meta = true.
Proof.
  intros Hs. unfold reachesRemote. rewrite Hs.
  change (Id (SetId d (cid ++ "/" ++ pid))) with (cid ++ "/" ++ pid).
  destruct (idParts_compose_ok cid pid) as (a & b & rest & E).
  rewrite E. reflexivity.
Qed.

(** A run of [Read] that gets to the remote is one exchange, a get. *)
Lemma Read_one_exchange (d : PolicyData) (meta : ClientSession) (W : Type)
    (api : VpnPolicyAPI W) (w : W) :
  reachesRemote OpRead d meta = true ->
  exists q a,
    exchanges (run api (resourceIBMPIIPSecPolicyRead d meta) w) = [(q, a)] /\
    operationOf q = OpRead.
Proof.
  intros Hr.
  pose proof (run_Read d meta api w) as H. cbv zeta in H.
  destruct H as [[Hn _]|[_ (sess & cid & pid & rest & _ & _ &
                             [(p & w' & _ & ->)|[(w' & _ & ->)|(e & w' & _ & ->)]])]].
  - rewrite Hr in Hn. discriminate.
  - eexists _, _. split; reflexivity.
  - eexists _, _. split; reflexivity.
  - eexists _, _. split; reflexivity.
Qed.

(** The exchanges of a run, for each of the four functions.  A function that
    does not get to the remote has none.  One that does starts with its own
    operation; [Read] and [Delete] stop there, and so do [Create] and
    [Update] when that operation fails; when it succeeds they go on with
    the one exchange of [Read], but for a [Create] that is answered with a
    policy it cannot take the ID of, which stops there too. *)
Lemma exchanges_shape (op : Operation) (d : PolicyData) (meta : ClientSession)
    (W : Type) (api : VpnPolicyAPI W) (w : W) :
  let r := run api (lifecycle op d meta) w in
  if reachesRemote op d meta then
    exists q a rest,
      exchanges r = (q, a) :: rest /\
      operationOf q = op /\
      match op, responseError a with
      | OpCreate, None =>
          if unusable (q, a) then rest = []
          else exists q' a', rest = [(q', a')] /\ operationOf q' = OpRead
      | OpUpdate, None =>
          exists q' a', rest = [(q', a')] /\ operationOf q' = OpRead
      | _, _ => rest = []
      end
  else exchanges r = [].
Proof.
  cbv zeta. destruct op; simpl lifecycle.
  - pose proof (run_Create d meta api w) as H. cbv zeta in H.
    destruct H as [[-> [err ->]]|[-> (sess & Hs &
                                    [(p & policyID & w' & _ & Hp & ->)
                                    |[(p & w' & _ & Hp & ->)|(e & w' & _ & ->)]])]].
    + reflexivity.
    + destruct (Read_one_exchange _ _ api w'
                  (Read_reaches_composed d meta (Get d PICloudInstanceId) policyID Hs))
        as (q' & a' & E & Hq').
      eexists _, _, _. split; [reflexivity|]. split; [reflexivity|].
      cbn [responseError unusable]. rewrite Hp. exists q', a'. split; [exact E | exact Hq'].
    + eexists _, _, _. split; [reflexivity|]. split; [reflexivity|].
      cbn [responseError unusable]. rewrite Hp. reflexivity.
    + eexists _, _, _. split; [reflexivity|]. split; reflexivity.
  - pose proof (run_Read d meta api w) as H. cbv zeta in H.
    destruct H as [[-> [err ->]]|[-> (sess & cid & pid & rest & _ & _ &
                                    [(p & w' & _ & ->)|[(w' & _ & ->)|(e & w' & _ & ->)]])]].
    + reflexivity.
    + eexists _, _, _. split; [reflexivity|]. split; reflexivity.
    + eexists _, _, _. split; [reflexivity|]. split; reflexivity.
    + eexists _, _, _. split; [reflexivity|]. split; reflexivity.
  - pose proof (run_Update d meta api w) as H. cbv zeta in H.
    destruct H as [[-> [err ->]]|[Hr (sess & cid & pid & rest & _ & _ & [(p & w' & _ & ->)|(e & w' & _ & ->)])]].
    + reflexivity.
    + rewrite Hr.
      destruct (Read_one_exchange d meta api w' Hr) as (q' & a' & E & Hq').
      eexists _, _, _. split; [reflexivity|]. split; [reflexivity|].
      simpl. exists q', a'. split; [exact E | exact Hq'].
    + rewrite Hr. eexists _, _, _. split; [reflexivity|]. split; reflexivity.
  - pose proof (run_Delete d meta api w) as H. cbv zeta in H.
    destruct H as [[-> [err ->]]|[-> (sess & cid & pid & rest & _ & _ & [(w' & _ & ->)|(e & w' & _ & ->)])]].
    + reflexivity.
    + eexists _, _, _. split; [reflexivity|]. split; reflexivity.
    + eexists _, _, _. split; [reflexivity|]. split; reflexivity.
Qed.

(** C3, as the code has it.  [Read] and [Delete] are one exchange with the
    remote once session setup and identifier parsing succeed, and none
    otherwise.  [Create] and [Update] send their own request once session
    setup (and, for [Update], identifier parsing) succeeds; they stop after
    that one exchange when it fails, and when it succeeds they read the policy
    back, which is a second exchange.  The one exception is a [Create] whose
    create call is answered, without error, by a policy it cannot take the
    ID of: it panics on [*ipsecPolicy.ID] with that one exchange made. *)
Theorem C3_exchanges_per_entry_point (op : Operation) (d : PolicyData)
    (meta : ClientSession) (W : Type) (api : VpnPolicyAPI W) (w : W) :
  let r := run api (lifecycle op d meta) w in
  if reachesRemote op d meta then
    exists q a rest,
      exchanges r = (q, a) :: rest /\
      operationOf q = op /\
      match op, responseError a with
      | OpCreate, None =>
          if unusable (q, a) then rest = []
          else exists q' a', rest = [(q', a')] /\ operationOf q' = OpRead
      | OpUpdate, None =>
          exists q' a', rest = [(q', a')] /\ operationOf q' = OpRead
      | _, _ => rest = []
      end
  else exchanges r = [].
Proof.
  exact (exchanges_shape op d meta api w).
Qed.

(** C3 as the specification states it fails: a [Create] whose remote call
    succeeds is two exchanges, the create and the read-back. *)
Lemma C3_counterexample :
  ~ singleExchange OpCreate sampleNew sampleSession scriptedAPI
      [RespPolicy (inl samplePolicy); RespPolicy (inl samplePolicy)].
Proof.
  unfold singleExchange. vm_compute. discriminate.
Qed.

(** Nor does every run reach the remote: without session, [Read] returns
    the session error and asks nothing. *)
Example read_without_session_asks_nothing :
  let r := run refusingAPI (resourceIBMPIIPSecPolicyRead sampleStored brokenSession) tt in
  exchanges r = [] /\
  option_map snd (result r) = Some (diag.FromErr "no credentials").
Proof.
  vm_compute. split; reflexivity.
Qed.

(** A create call answered, without error, by a policy that has no ID:
    [Create] panics after that one exchange and returns nothing, with the
    policy created on the remote. *)
Example create_panics_on_policy_without_id :
  let r := run scriptedAPI (resourceIBMPIIPSecPolicyCreate sampleNew sampleSession)
             [RespPolicy (inl policyWithoutID); RespPolicy (inl samplePolicy)] in
  result r = None /\
  map operationOf (requests r) = [OpCreate] /\
  remote r = [RespPolicy (inl samplePolicy)].
Proof.
  vm_compute. repeat split.
Qed.

(** ** The adapter shape *)

(** C5. The resource registers a function for each of the four lifecycle
    operations, the four of this file, and no import function.  Each of them,
    when it gets to the remote, turns first to its own operation of the VPN
    policy client (create, get, update, delete); nothing else is asked of the
    remote but the get by which [Create] and [Update] read the policy back. *)
Theorem C5_four_entry_points :
  (forall op, entryPoint resourceIBMPIIPSecPolicy op = Some (lifecycle op)) /\
  Importer resourceIBMPIIPSecPolicy = Some {| StateContext := None |} /\
  (forall (op : Operation) (d : PolicyData) (meta : ClientSession)
          (W : Type) (api : VpnPolicyAPI W) (w : W),
     (reachesRemote op d meta = true ->
      exists q rest,
        requests (run api (lifecycle op d meta) w) = q :: rest /\ operationOf q = op) /\
     (forall q, In q (requests (run api (lifecycle op d meta) w)) ->
        operationOf q = op \/
        (operationOf q = OpRead /\ (op = OpCreate \/ op = OpUpdate)))).
Proof.
  split; [intros []; reflexivity|]. split; [reflexivity|].
  intros op d meta W api w.
  pose proof (exchanges_shape op d meta api w) as H. cbv zeta in H.
  unfold requests.
  destruct (reachesRemote op d meta).
  - destruct H as (q & a & rest & -> & Hq & Hrest). split.
    + intros _. exists q, (map fst rest). split; [reflexivity | exact Hq].
    + intros q0 [<-|Hin]; [left; exact Hq|].
      destruct op, (responseError a); cbv beta iota in Hrest;
        try destruct (unusable (q, a));
        try (subst rest; contradiction);
        destruct Hrest as (q' & a' & -> & Hq');
        destruct Hin as [<-|[]]; right; split; auto.
  - rewrite H. split; [discriminate | intros q []].
Qed.

(** ** Errors of the remote client *)

(** C4. Whenever an operation of the remote client that a lifecycle function
    invoked answered with an error, the function returns a diagnostic list
    that is not empty: the one error diagnostic that [diag.Errorf] makes
    from a format of the client's [errors] package, an identifier and that
    very error.  So a function that returns no diagnostic met no client
    error. *)
Theorem C4_error_passthrough (op : Operation) (d : PolicyData)
    (meta : ClientSession) (W : Type) (api : VpnPolicyAPI W) (w : W)
    (a : Response) (e : error) :
  In a (responses (run api (lifecycle op d meta) w)) ->
  responseError a = Some e ->
  exists d' ds format arg,
    result (run api (lifecycle op d meta) w) = Some (d', ds) /\
    ds = diag.Errorf format arg e /\
    map diag.wrapped ds = [Some e] /\
    ds <> [].
Proof.
  assert (HRead : forall d0 w0,
            In a (responses (run api (resourceIBMPIIPSecPolicyRead d0 meta) w0)) ->
            responseError a = Some e ->
            exists d' ds format arg,
              result (run api (resourceIBMPIIPSecPolicyRead d0 meta) w0) = Some (d', ds) /\
              ds = diag.Errorf format arg e /\
              map diag.wrapped ds = [Some e] /\ ds <> []).
  { intros d0 w0 Hin He.
    pose proof (run_Read d0 meta api w0) as H. cbv zeta in H.
    destruct H as [[_ [err E]]|[_ (sess & cid & pid & rest & _ & _ &
                                  [(p & w' & _ & E)|[(w' & _ & E)|(e' & w' & _ & E)]])]];
      rewrite E in *; simpl in Hin.
    - contradiction.
    - destruct Hin as [<-|[]]. discriminate He.
    - destruct Hin as [<-|[]]. discriminate He.
    - destruct Hin as [<-|[]]. injection He as ->.
      eexists _, _, _, _. split; [reflexivity|]. split; [reflexivity|]. split; [reflexivity | discriminate]. }
  intros Hin He. destruct op; simpl lifecycle in *.
  - pose proof (run_Create d meta api w) as H. cbv zeta in H.
    destruct H as [[_ [err E]]|[_ (sess & _ &
                                  [(p & policyID & w' & _ & _ & E)
                                  |[(p & w' & _ & _ & E)|(e' & w' & _ & E)]])]];
      rewrite E in *; simpl in Hin.
    + contradiction.
    + destruct Hin as [<-|Hin]; [discriminate He|].
      exact (HRead _ _ Hin He).
    + destruct Hin as [<-|[]]. discriminate He.
    + destruct Hin as [<-|[]]. injection He as ->.
      eexists _, _, _, _. split; [reflexivity|]. split; [reflexivity|]. split; [reflexivity | discriminate].
  - exact (HRead _ _ Hin He).
  - pose proof (run_Update d meta api w) as H. cbv zeta in H.
    destruct H as [[_ [err E]]|[_ (sess & cid & pid & rest & _ & _ & [(p & w' & _ & E)|(e' & w' & _ & E)])]];
      rewrite E in *; simpl in Hin.
    + contradiction.
    + destruct Hin as [<-|Hin]; [discriminate He|].
      exact (HRead _ _ Hin He).
    + destruct Hin as [<-|[]]. injection He as ->.
      eexists _, _, _, _. split; [reflexivity|]. split; [reflexivity|]. split; [reflexivity | discriminate].
  - pose proof (run_Delete d meta api w) as H. cbv zeta in H.
    destruct H as [[_ [err E]]|[_ (sess & cid & pid & rest & _ & _ & [(w' & _ & E)|(e' & w' & _ & E)])]];
      rewrite E in *; simpl in Hin.
    + contradiction.
    + destruct Hin as [<-|[]]. discriminate He.
    + destruct Hin as [<-|[]]. injection He as ->.
      eexists _, _, _, _. split; [reflexivity|]. split; [reflexivity|]. split; [reflexivity | discriminate].
Qed.

Lemma C4_error_passthrough_witness :
  exists d' ds format arg,
    result (run scriptedAPI (lifecycle OpCreate sampleNew sampleSession)
              [RespPolicy (inl samplePolicy); RespPolicy (inr "503 unavailable")])
      = Some (d', ds) /\
    ds = diag.Errorf format arg "503 unavailable" /\
    map diag.wrapped ds = [Some "503 unavailable"] /\
    ds <> [].
Proof.
  apply (@C4_error_passthrough OpCreate sampleNew sampleSession _ scriptedAPI
           [RespPolicy (inl samplePolicy); RespPolicy (inr "503 unavailable")]
           (RespPolicy (inr "503 unavailable")) "503 unavailable").
  - simpl. right. left. reflexivity.
  - reflexivity.
Defined.

(** ** The composite identifier *)

(** The first request of a read, update or delete goes through the client
    of the first part of the stored identifier, for that cloud instance and
    for the policy named by the second part. *)
Lemma first_request_from_parts (op : Operation) (d : PolicyData)
    (meta : ClientSession) (sess : IBMPISession) (cid pid : string)
    (rest : list string) (W : Type) (api : VpnPolicyAPI W) (w : W) :
  op <> OpCreate ->
  getIBMPISession meta = inl sess ->
  idParts (Id d) = (cid :: pid :: rest, None) ->
  exists q tl,
    requests (run api (lifecycle op d meta) w) = q :: tl /\
    operationOf q = op /\
    clientOf q = NewIBMPIVpnPolicyClient sess cid /\
    cloudInstanceOf q = cid /\
    policyOf q = Some pid.
Proof.
  intros Hop Hs Hid.
  assert (Hr : forall o, o <> OpCreate -> reachesRemote o d meta = true).
  { intros o Ho. unfold reachesRemote. rewrite Hs, Hid. destruct o; reflexivity. }
  destruct op; [contradiction| | |]; simpl lifecycle.
  - pose proof (run_Read d meta api w) as H. cbv zeta in H.
    destruct H as [[Hn _]|[_ (sess' & c & p & r & Hs' & Hid' & H)]];
      [rewrite (Hr OpRead Hop) in Hn; discriminate|].
    rewrite Hs in Hs'. injection Hs' as <-.
    rewrite Hid in Hid'. injection Hid' as <- <- <-.
    destruct H as [(pol & w' & _ & ->)|[(w' & _ & ->)|(e & w' & _ & ->)]];
      eexists _, _; (split; [reflexivity|]); repeat split.
  - pose proof (run_Update d meta api w) as H. cbv zeta in H.
    destruct H as [[Hn _]|[_ (sess' & c & p & r & Hs' & Hid' & H)]];
      [rewrite (Hr OpUpdate Hop) in Hn; discriminate|].
    rewrite Hs in Hs'. injection Hs' as <-.
    rewrite Hid in Hid'. injection Hid' as <- <- <-.
    destruct H as [(pol & w' & _ & ->)|(e & w' & _ & ->)];
      eexists _, _; (split; [reflexivity|]); repeat split.
  - pose proof (run_Delete d meta api w) as H. cbv zeta in H.
    destruct H as [[Hn _]|[_ (sess' & c & p & r & Hs' & Hid' & H)]];
      [rewrite (Hr OpDelete Hop) in Hn; discriminate|].
    rewrite Hs in Hs'. injection Hs' as <-.
    rewrite Hid in Hid'. injection Hid' as <- <- <-.
    destruct H as [(w' & _ & ->)|(e & w' & _ & ->)];
      eexists _, _; (split; [reflexivity|]); repeat split.
Qed.

(** Two parts free of "/" round-trip. *)
Lemma roundTrips_without_slash (cloudInstanceID policyID : string) :
  strings.Contains cloudInstanceID strings.slash = false ->
  strings.Contains policyID strings.slash = false ->
  roundTrips cloudInstanceID policyID.
Proof.
  intros Hc Hp op d meta sess W api w Hop Hs Hid.
  apply (@first_request_from_parts op d meta sess cloudInstanceID policyID [] W api w Hop Hs).
  rewrite Hid. apply idParts_compose; assumption.
Qed.

(** Only such parts do: a part with a "/" in it is cut short by the parse. *)
Lemma roundTrips_only_without_slash (cloudInstanceID policyID : string) :
  roundTrips cloudInstanceID policyID ->
  strings.Contains cloudInstanceID strings.slash = false /\
  strings.Contains policyID strings.slash = false.
Proof.
  intros H.
  set (d := {| rd_id := cloudInstanceID ++ "/" ++ policyID;
               rd_state := empty_level ipsecPolicySchema;
               rd_diff := empty_level ipsecPolicySchema;
               rd_set := empty_level ipsecPolicySchema |} : PolicyData).
  destruct (idParts_compose_ok cloudInstanceID policyID) as (a & b & rest & Hid).
  assert (Hop : OpRead <> OpCreate) by discriminate.
  destruct (H OpRead d sampleSession {| sessionHandle := "session" |} unit refusingAPI tt
              Hop eq_refl eq_refl) as (q & tl & E & _ & _ & Hc & Hp).
  destruct (@first_request_from_parts OpRead d sampleSession _ a b rest unit refusingAPI tt
              Hop eq_refl Hid) as (q' & tl' & E' & _ & _ & Hc' & Hp').
  rewrite E in E'. injection E' as <- <-.
  rewrite Hc in Hc'. rewrite Hp in Hp'. injection Hp' as Hp'. subst a b.
  pose proof (idParts_parts_without_slash _ Hid) as F.
  inversion F as [|? ? Fa F']; subst. inversion F' as [|? ? Fb ?]; subst.
  split; assumption.
Qed.

(** Whatever the parse, some composed identifier does not give back its two
    parts: "a/b" with "c" and "a" with "b/c" compose to the same string. *)
Lemma no_parse_round_trips_all (parse : string -> list string * option error) :
  ~ (forall cloudInstanceID policyID : string,
       exists rest,
         parse (cloudInstanceID ++ "/" ++ policyID)
           = (cloudInstanceID :: policyID :: rest, None)).
Proof.
  intros H.
  destruct (H "a/b" "c") as (r1 & E1).
  destruct (H "a" "b/c") as (r2 & E2).
  change ("a" ++ "/" ++ "b/c") with ("a/b" ++ "/" ++ "c") in E2.
  rewrite E1 in E2. discriminate E2.
Qed.

(** C1, as the code has it.  A successful [Create] - one that returns no
    diagnostic - was answered by the remote create call with a policy that
    has an ID, and leaves the local identifier set to the configured cloud
    instance identifier, a "/" and that ID.  When neither of the two holds a
    "/", the read-back inside [Create], and every later read, update or
    delete of a resource that stores this identifier, turns to the remote
    for exactly that cloud instance and that policy. *)
Theorem C1_identifier_round_trip (d d' : PolicyData) (meta : ClientSession)
    (W : Type) (api : VpnPolicyAPI W) (w : W) :
  result (run api (resourceIBMPIIPSecPolicyCreate d meta) w) = Some (d', []) ->
  exists (sess : IBMPISession) (created : IPSecPolicy) (policyID : string)
         (rest : list Response),
    getIBMPISession meta = inl sess /\
    responses (run api (resourceIBMPIIPSecPolicyCreate d meta) w)
      = RespPolicy (inl created) :: rest /\
    derefID created = Some policyID /\
    Id d' = Get d PICloudInstanceId ++ "/" ++ policyID /\
    (strings.Contains (Get d PICloudInstanceId) strings.slash = false ->
     strings.Contains policyID strings.slash = false ->
     nth_error (requests (run api (resourceIBMPIIPSecPolicyCreate d meta) w)) 1
       = Some (ReqGet (NewIBMPIVpnPolicyClient sess (Get d PICloudInstanceId)) policyID
                 (Get d PICloudInstanceId)) /\
     roundTrips (Get d PICloudInstanceId) policyID).
Proof.
  pose proof (run_Create d meta api w) as H. cbv zeta in H.
  destruct H as [[_ [err ->]]|[_ (sess & Hs &
                                 [(p & policyID & w' & _ & Hp & ->)
                                 |[(p & w' & _ & _ & ->)|(e & w' & _ & ->)]])]];
    intros E; [discriminate E| |discriminate E|discriminate E].
  set (d1 := SetId d (Get d PICloudInstanceId ++ "/" ++ policyID)) in *.
  change (result (run api (resourceIBMPIIPSecPolicyRead d1 meta) w') = Some (d', [])) in E.
  pose proof (run_Read d1 meta api w') as R. cbv zeta in R.
  destruct R as [[_ [err R]]|[_ (sess' & c & i & r & Hs' & Hid' & R)]];
    [rewrite R in E; discriminate E|].
  rewrite Hs in Hs'. injection Hs' as <-.
  change (Id d1) with (Get d PICloudInstanceId ++ "/" ++ policyID) in Hid'.
  exists sess, p, policyID. eexists. split; [exact Hs|].
  split; [unfold responses; cbn [withExchange exchanges map snd]; reflexivity|].
  split; [exact Hp|].
  destruct R as [(pol & w2 & _ & R)|[(w2 & _ & R)|(e & w2 & _ & R)]];
    rewrite R in *; [|discriminate E|discriminate E].
  injection E as <-. split; [reflexivity|].
  intros Hnc Hnp. split; [|apply roundTrips_without_slash; assumption].
  rewrite (idParts_compose _ _ Hnc Hnp) in Hid'. injection Hid' as <- <- <-.
  reflexivity.
Qed.

Lemma C1_identifier_round_trip_witness :
  exists (sess : IBMPISession) (created : IPSecPolicy) (policyID : string)
         (rest : list Response),
    getIBMPISession sampleSession = inl sess /\
    responses (run scriptedAPI (resourceIBMPIIPSecPolicyCreate sampleNew sampleSession)
                 [RespPolicy (inl samplePolicy); RespPolicy (inl samplePolicy)])
      = RespPolicy (inl created) :: rest /\
    derefID created = Some policyID /\
    Id (readBack (SetId sampleNew "cloud-1/p-1") samplePolicy)
      = Get sampleNew PICloudInstanceId ++ "/" ++ policyID /\
    (strings.Contains (Get sampleNew PICloudInstanceId) strings.slash = false ->
     strings.Contains policyID strings.slash = false ->
     nth_error (requests (run scriptedAPI
                            (resourceIBMPIIPSecPolicyCreate sampleNew sampleSession)
                            [RespPolicy (inl samplePolicy); RespPolicy (inl samplePolicy)])) 1
       = Some (ReqGet (NewIBMPIVpnPolicyClient sess (Get sampleNew PICloudInstanceId))
                 policyID (Get sampleNew PICloudInstanceId)) /\
     roundTrips (Get sampleNew PICloudInstanceId) policyID).
Proof.
  apply (@C1_identifier_round_trip sampleNew
           (readBack (SetId sampleNew "cloud-1/p-1") samplePolicy)
           sampleSession _ scriptedAPI
           [RespPolicy (inl samplePolicy); RespPolicy (inl samplePolicy)]).
  reflexivity.
Defined.

(** C1 as the specification states it, for every pair of identifiers, fails:
    the cloud instance "a/b" with the policy "p-1" is stored as "a/b/p-1",
    which a read parses as the policy "b" of the cloud instance "a". *)
Lemma C1_counterexample : ~ roundTrips "a/b" "p-1".
Proof.
  intros H.
  assert (Hop : OpRead <> OpCreate) by discriminate.
  destruct (H OpRead slashStored sampleSession {| sessionHandle := "session" |}
              unit refusingAPI tt Hop eq_refl eq_refl) as (q & rest & E & _ & _ & Hc & _).
  vm_compute in E. injection E as <- _. discriminate Hc.
Qed.

(** The same on the way through [Create]: with the cloud instance "a/b"
    configured, the policy "p-1" is created in "a/b", stored as "a/b/p-1",
    and read back as the policy "b" of the cloud instance "a". *)
Example create_reads_back_cut_identifier :
  let r := run scriptedAPI (resourceIBMPIIPSecPolicyCreate slashNew sampleSession)
             [RespPolicy (inl samplePolicy); RespPolicy (inl samplePolicy)] in
  map cloudInstanceOf (requests r) = ["a/b"; "a"] /\
  map policyOf (requests r) = [None; Some "b"] /\
  option_map (fun x => Id (fst x)) (result r) = Some "a/b/p-1".
Proof.
  vm_compute. repeat split.
Qed.

(** ** Validation by the schema *)

(** An accepted configuration has no error at any key. *)
Lemma accepts_each_key (sch : Key -> Schema) (c : ResourceConfig sch) (k : Key) :
  accepts c = true -> diag.HasError (validate k c) = false.
Proof.
  unfold accepts, Validate. intros H. apply negb_true_iff in H.
  destruct (diag.HasError (validate k c)) eqn:E; [|reflexivity].
  rewrite <- H. symmetry. unfold diag.HasError in *.
  apply existsb_exists in E as (x & Hin & Hx).
  apply existsb_exists. exists x. split; [|exact Hx].
  apply in_flat_map. exists k. split; [|exact Hin].
  unfold all_keys. destruct k; simpl; tauto.
Qed.

(** The diagnostics of a validator that found no error hold no error. *)
Lemma HasError_of_validator (ws : list string) (es : list error) :
  diag.HasError
    (map (fun w => {| diag.severity := diag.Warning; diag.summary := diag.Text w |}) ws
     ++ map (fun e => {| diag.severity := diag.Error; diag.summary := diag.OfErr e |}) es)%list
  = match es with [] => false | _ :: _ => true end.
Proof.
  unfold diag.HasError. rewrite existsb_app.
  assert (existsb
            (fun d => match diag.severity d with diag.Error => true | diag.Warning => false end)
            (map (fun w => {| diag.severity := diag.Warning; diag.summary := diag.Text w |}) ws)
          = false) as ->.
  { induction ws as [|x ws IH]; simpl; [reflexivity | exact IH]. }
  destruct es; reflexivity.
Qed.

Lemma validateAllowedIntValue_ok (allowed : list Z) (value : Z) :
  snd (validateAllowedIntValue allowed value) = [] -> In value allowed.
Proof.
  unfold validateAllowedIntValue.
  destruct (existsb (Z.eqb value) allowed) eqn:E; [intros _|discriminate].
  apply existsb_exists in E as (x & Hin & Hx). apply Z.eqb_eq in Hx. subst. exact Hin.
Qed.

Lemma validateAllowedStringValue_ok (validValues : list string) (input : string) :
  snd (validateAllowedStringValue validValues input) = [] -> In input validValues.
Proof.
  unfold validateAllowedStringValue.
  destruct (existsb (String.eqb input) validValues) eqn:E; [intros _|discriminate].
  apply existsb_exists in E as (x & Hin & Hx). apply String.eqb_eq in Hx. subst. exact Hin.
Qed.

Lemma validateAllowedRangeInt_ok (first last value : Z) :
  snd (validateAllowedRangeInt first last value) = [] -> first <= value <= last.
Proof.
  unfold validateAllowedRangeInt.
  destruct (value <? first) eqn:E1; [discriminate|].
  destruct (value >? last) eqn:E2; [discriminate|]. intros _.
  apply Z.ltb_ge in E1. rewrite Z.gtb_ltb in E2. apply Z.ltb_ge in E2. lia.
Qed.

(** C10. A configuration the schema accepts has a DH group among 1, 2, 5,
    14, 19, 20 and 24, a key lifetime from 180 to 86400, both included, an
    encryption among the seven listed ciphers, and an authentication - the
    configured one, or "none" when it is left out - among the four listed
    values. *)
Theorem C10_schema_validation (c : ResourceConfig ipsecPolicySchema) :
  accepts c = true ->
  exists (dhGroup keyLifetime : Z) (encryption authentication : string),
    c PIVPNPolicyDhGroup = Some dhGroup /\
    In dhGroup [1; 2; 5; 14; 19; 20; 24] /\
    c PIVPNPolicyKeyLifetime = Some keyLifetime /\
    180 <= keyLifetime <= 86400 /\
    c PIVPNPolicyEncryption = Some encryption /\
    In encryption ["3des-cbc"; "aes-128-cbc"; "aes-128-gcm"; "aes-192-cbc";
                   "aes-256-cbc"; "aes-256-gcm"; "des-cbc"] /\
    planned c PIVPNPolicyAuthentication = Some authentication /\
    In authentication ["hmac-md5-96"; "hmac-sha-256-128"; "hmac-sha1-96"; "none"].
Proof.
  intros Hacc.
  pose proof (accepts_each_key c PIVPNPolicyDhGroup Hacc) as Hdh.
  pose proof (accepts_each_key c PIVPNPolicyKeyLifetime Hacc) as Hkl.
  pose proof (accepts_each_key c PIVPNPolicyEncryption Hacc) as Henc.
  pose proof (accepts_each_key c PIVPNPolicyAuthentication Hacc) as Hau.
  unfold validate, planned in *.
  destruct (c PIVPNPolicyDhGroup) as [dh|]; [|discriminate Hdh].
  destruct (c PIVPNPolicyKeyLifetime) as [kl|]; [|discriminate Hkl].
  destruct (c PIVPNPolicyEncryption) as [enc|]; [|discriminate Henc].
  cbn [ipsecPolicySchema Required Optional ValidateFunc Type_ Default negb andb] in *.
  rewrite HasError_of_validator in Hdh, Hkl, Henc.
  exists dh, kl, enc.
  assert (In dh allowedDhGroups) as Idh.
  { apply validateAllowedIntValue_ok.
    destruct (snd (validateAllowedIntValue allowedDhGroups dh)); [reflexivity|discriminate]. }
  assert (180 <= kl <= 86400) as Ikl.
  { apply validateAllowedRangeInt_ok.
    destruct (snd (validateAllowedRangeInt 180 86400 kl)); [reflexivity|discriminate]. }
  assert (In enc allowedEncryptions) as Ienc.
  { apply validateAllowedStringValue_ok.
    destruct (snd (validateAllowedStringValue allowedEncryptions enc)); [reflexivity|discriminate]. }
  destruct (c PIVPNPolicyAuthentication) as [au|].
  - rewrite HasError_of_validator in Hau. exists au.
    repeat (split; [first [reflexivity | assumption]|]).
    change (In au allowedAuthentications).
    apply validateAllowedStringValue_ok.
    destruct (snd (validateAllowedStringValue allowedAuthentications au)); [reflexivity|discriminate].
  - exists "none".
    repeat (split; [first [reflexivity | assumption]|]).
    simpl. tauto.
Qed.

Lemma C10_schema_validation_witness :
  exists (dhGroup keyLifetime : Z) (encryption authentication : string),
    sampleConfig PIVPNPolicyDhGroup = Some dhGroup /\
    In dhGroup [1; 2; 5; 14; 19; 20; 24] /\
    sampleConfig PIVPNPolicyKeyLifetime = Some keyLifetime /\
    180 <= keyLifetime <= 86400 /\
    sampleConfig PIVPNPolicyEncryption = Some encryption /\
    In encryption ["3des-cbc"; "aes-128-cbc"; "aes-128-gcm"; "aes-192-cbc";
                   "aes-256-cbc"; "aes-256-gcm"; "des-cbc"] /\
    planned sampleConfig PIVPNPolicyAuthentication = Some authentication /\
    In authentication ["hmac-md5-96"; "hmac-sha-256-128"; "hmac-sha1-96"; "none"].
Proof.
  apply (C10_schema_validation sampleConfig). reflexivity.
Defined.

(** * Further properties of the lifecycle functions *)

(** ** What [Create] sends and stores *)

(** The [GetOk] guard of [Create] changes nothing: an authentication that
    [GetOk] does not report is the empty string, which the body holds
    already. *)
Lemma createBody_authentication (d : PolicyData) :
  c_Authentication (createBody d) = Get d PIVPNPolicyAuthentication.
Proof.
  unfold createBody, GetOk, Get.
  destruct (readSet d PIVPNPolicyAuthentication) as [v|]; simpl; [|reflexivity].
  destruct (String.eqb v "") eqn:E; simpl; [|reflexivity].
  apply String.eqb_eq in E. symmetry. exact E.
Qed.

(** With a session, the first request of [Create] is the create request
    with the body built from the resource data. *)
Lemma Create_first_request (d : PolicyData) (meta : ClientSession)
    (sess : IBMPISession) (W : Type) (api : VpnPolicyAPI W) (w : W) :
  getIBMPISession meta = inl sess ->
  exists rest,
    requests (run api (resourceIBMPIIPSecPolicyCreate d meta) w)
      = ReqCreate (NewIBMPIVpnPolicyClient sess (Get d PICloudInstanceId)) (createBody d)
          (Get d PICloudInstanceId) :: rest.
Proof.
  intros Hs.
  pose proof (run_Create d meta api w) as H. cbv zeta in H.
  destruct H as [[Hn _]|[_ (sess' & Hs' &
                             [(p & policyID & w' & _ & _ & ->)
                             |[(p & w' & _ & _ & ->)|(e & w' & _ & ->)]])]].
  - unfold reachesRemote in Hn. rewrite Hs in Hn. discriminate.
  - rewrite Hs in Hs'. injection Hs' as <-. eexists. reflexivity.
  - rewrite Hs in Hs'. injection Hs' as <-. eexists. reflexivity.
  - rewrite Hs in Hs'. injection Hs' as <-. eexists. reflexivity.
Qed.

(** X1. The create request always carries the authentication that [d.Get]
    reads, whether or not [d.GetOk] reports it: the body is sent with the
    configured authentication, and with the empty string exactly when the
    resource data has none or an empty one. *)
Theorem X1_create_sends_authentication (d : PolicyData) (meta : ClientSession)
    (sess : IBMPISession) (W : Type) (api : VpnPolicyAPI W) (w : W) :
  getIBMPISession meta = inl sess ->
  exists client body cid rest,
    requests (run api (resourceIBMPIIPSecPolicyCreate d meta) w)
      = ReqCreate client body cid :: rest /\
    c_Authentication body = Get d PIVPNPolicyAuthentication.
Proof.
  intros Hs. destruct (@Create_first_request d meta sess W api w Hs) as (rest & E).
  eexists _, _, _, rest. split; [exact E | apply createBody_authentication].
Qed.

Lemma X1_create_sends_authentication_witness :
  exists client body cid rest,
    requests (run refusingAPI (resourceIBMPIIPSecPolicyCreate sampleNew sampleSession) tt)
      = ReqCreate client body cid :: rest /\
    c_Authentication body = "none".
Proof.
  apply (@X1_create_sends_authentication sampleNew sampleSession
           {| sessionHandle := "session" |} unit refusingAPI tt).
  reflexivity.
Defined.

(** Whenever [Read] returns, it is with the identifier and the cloud
    instance attribute it was given. *)
Lemma Read_keeps_identifier (d d' : PolicyData) (ds : diag.Diagnostics)
    (meta : ClientSession) (W : Type) (api : VpnPolicyAPI W) (w : W) :
  result (run api (resourceIBMPIIPSecPolicyRead d meta) w) = Some (d', ds) ->
  Id d' = Id d /\ Get d' PICloudInstanceId = Get d PICloudInstanceId.
Proof.
  pose proof (run_Read d meta api w) as H. cbv zeta in H.
  destruct H as [[_ [err ->]]|[_ (sess' & c & i & rest & _ & _ &
                                 [(p & w' & _ & ->)|[(w' & _ & ->)|(e & w' & _ & ->)]])]];
    intros E; try discriminate E; injection E as <- <-; split; reflexivity.
Qed.

(** A run of [Read] ends in a panic exactly when its one exchange is a get
    answered without error by a [nil] policy. *)
Lemma Read_panics (d : PolicyData) (meta : ClientSession) (W : Type)
    (api : VpnPolicyAPI W) (w : W) :
  result (run api (resourceIBMPIIPSecPolicyRead d meta) w) = None <->
  exists q, exchanges (run api (resourceIBMPIIPSecPolicyRead d meta) w)
              = [(q, RespPolicy (inl None))].
Proof.
  pose proof (run_Read d meta api w) as H. cbv zeta in H.
  destruct H as [[_ [err ->]]|[_ (sess' & c & i & rest & _ & _ &
                                 [(p & w' & _ & ->)|[(w' & _ & ->)|(e & w' & _ & ->)]])]];
    simpl; split; try discriminate; try (intros (q & E); discriminate E).
  - intros _. eexists. reflexivity.
  - reflexivity.
Qed.

(** X2. What [Create] leaves, by the answer to its create call.  With no
    session or a failed create call it returns the resource data as it was,
    with a diagnostic.  Answered with a policy that has an ID, it returns -
    unless the read-back panics on a [nil] policy - resource data whose
    identifier is the configured cloud instance, "/" and that ID, also when
    the read-back fails.  Answered without error with a policy that is
    [nil] or has no ID, it panics on [*ipsecPolicy.ID] and returns nothing,
    after the one exchange that created the policy. *)
Theorem X2_create_stores_identifier (d : PolicyData) (meta : ClientSession)
    (W : Type) (api : VpnPolicyAPI W) (w : W) :
  let r := run api (resourceIBMPIIPSecPolicyCreate d meta) w in
  match responses r with
  | RespPolicy (inl p) :: rest =>
      match derefID p with
      | Some policyID =>
          (exists d' ds,
             result r = Some (d', ds) /\
             Id d' = Get d PICloudInstanceId ++ "/" ++ policyID) \/
          (result r = None /\ rest = [RespPolicy (inl None)])
      | None => result r = None /\ rest = []
      end
  | _ => exists ds, result r = Some (d, ds) /\ ds <> []
  end.
Proof.
  cbv zeta.
  pose proof (run_Create d meta api w) as H. cbv zeta in H.
  destruct H as [[_ [err ->]]|[_ (sess & Hs &
                                 [(p & policyID & w' & _ & Hp & ->)
                                 |[(p & w' & _ & Hp & ->)|(e & w' & _ & ->)]])]].
  - eexists. split; [reflexivity | discriminate].
  - unfold responses. cbn [withExchange exchanges result map snd]. rewrite Hp.
    set (d1 := SetId d (Get d PICloudInstanceId ++ "/" ++ policyID)).
    destruct (result (run api (resourceIBMPIIPSecPolicyRead d1 meta) w'))
      as [[d' ds]|] eqn:E.
    + left. exists d', ds. split; [reflexivity|].
      destruct (Read_keeps_identifier d1 meta api w' E) as (Hi & _). exact Hi.
    + right. split; [reflexivity|].
      apply Read_panics in E as (q & E). rewrite E. reflexivity.
  - unfold responses. cbn [withExchange exchanges result map snd panicked]. rewrite Hp.
    split; reflexivity.
  - eexists. split; [reflexivity | discriminate].
Qed.



(** ** What [Update] sends and stores *)



(** ** What a failure leaves *)

(** X5. A read, update or delete that returns a diagnostic leaves the
    resource data exactly as it was: identifier and attributes unchanged.
    In particular a failed update does not store the planned values, and a
    failed read does not clear the identifier. *)
Theorem X5_failure_leaves_data (op : Operation) (d d' : PolicyData)
    (ds : diag.Diagnostics) (meta : ClientSession)
    (W : Type) (api : VpnPolicyAPI W) (w : W) :
  op <> OpCreate ->
  result (run api (lifecycle op d meta) w) = Some (d', ds) ->
  ds <> [] ->
  d' = d.
Proof.
  assert (HRead : forall w0,
            result (run api (resourceIBMPIIPSecPolicyRead d meta) w0) = Some (d', ds) ->
            ds <> [] -> d' = d).
  { intros w0 E Hds.
    pose proof (run_Read d meta api w0) as R. cbv zeta in R.
    destruct R as [[_ [err R]]|[_ (sess & c & i & rest & _ & _ &
                                   [(p & w' & _ & R)|[(w' & _ & R)|(e & w' & _ & R)]])]];
      rewrite R in E; simpl in E; try discriminate E;
      injection E as <- <-; [reflexivity| |reflexivity].
    contradiction Hds. reflexivity. }
  intros Hop E Hds. destruct op; [contradiction| | |]; simpl lifecycle in E.
  - exact (HRead w E Hds).
  - pose proof (run_Update d meta api w) as H. cbv zeta in H.
    destruct H as [[_ [err H]]|[_ (sess & c & i & rest & _ & _ & [(p & w' & _ & H)|(e & w' & _ & H)])]];
      rewrite H in E; simpl in E.
    + injection E as <- <-. reflexivity.
    + exact (HRead w' E Hds).
    + injection E as <- <-. reflexivity.
  - pose proof (run_Delete d meta api w) as H. cbv zeta in H.
    destruct H as [[_ [err H]]|[_ (sess & c & i & rest & _ & _ & [(w' & _ & H)|(e & w' & _ & H)])]];
      rewrite H in E; simpl in E; injection E as <- <-; [reflexivity| |reflexivity].
    contradiction Hds. reflexivity.
Qed.

Lemma X5_failure_leaves_data_witness :
  sampleStored = sampleStored.
Proof.
  apply (@X5_failure_leaves_data OpUpdate sampleStored sampleStored
           (diag.Errorf diag.GetCloudConnectionOperationFailed "p-1" "503 unavailable")
           sampleSession _ scriptedAPI
           [RespPolicy (inl samplePolicy); RespPolicy (inr "503 unavailable")]).
  - discriminate.
  - reflexivity.
  - discriminate.
Defined.

(** ** Diagnostics, log lines and clients, exchange by exchange *)

(** What a run of [Read] shows: its log is the log lines of its exchanges;
    an error answer is its only exchange and gives the diagnostic of the
    failed request; its request goes through a client of the session, made
    for the cloud instance the request names. *)
Lemma Read_summary (d : PolicyData) (meta : ClientSession) (W : Type)
    (api : VpnPolicyAPI W) (w : W) :
  let r := run api (resourceIBMPIIPSecPolicyRead d meta) w in
  logged r = flat_map logLine (exchanges r) /\
  (forall q a e,
     In (q, a) (exchanges r) -> responseError a = Some e ->
     exchanges r = [(q, a)] /\
     exists d', result r = Some (d', diag.Errorf (failureFormat q) (failureSubject q) e)) /\
  (forall sess q,
     getIBMPISession meta = inl sess -> In q (requests r) ->
     clientOf q = NewIBMPIVpnPolicyClient sess (cloudInstanceOf q)).
Proof.
  cbv zeta.
  pose proof (run_Read d meta api w) as H. cbv zeta in H.
  destruct H as [[_ [err ->]]|[_ (sess & c & i & rest & Hs & _ &
                                 [(p & w' & _ & ->)|[(w' & _ & ->)|(e & w' & _ & ->)]])]];
    simpl.
  - split; [reflexivity|]. split; [intros q a e []|intros s q _ []].
  - split; [reflexivity|]. split.
    + intros q a e [E|[]] He. injection E as <- <-. discriminate He.
    + intros s q Hs' [<-|[]]. rewrite Hs in Hs'. injection Hs' as <-. reflexivity.
  - split; [reflexivity|]. split.
    + intros q a e [E|[]] He. injection E as <- <-. discriminate He.
    + intros s q Hs' [<-|[]]. rewrite Hs in Hs'. injection Hs' as <-. reflexivity.
  - split; [reflexivity|]. split.
    + intros q a e0 [E|[]] He. injection E as <- <-. injection He as <-.
      split; [reflexivity|]. eexists. reflexivity.
    + intros s q Hs' [<-|[]]. rewrite Hs in Hs'. injection Hs' as <-. reflexivity.
Qed.

(** The same for each of the four functions, where an error answer is the
    last exchange of the run. *)
Lemma lifecycle_summary (op : Operation) (d : PolicyData) (meta : ClientSession)
    (W : Type) (api : VpnPolicyAPI W) (w : W) :
  let r := run api (lifecycle op d meta) w in
  logged r = flat_map logLine (exchanges r) /\
  (forall q a e,
     In (q, a) (exchanges r) -> responseError a = Some e ->
     (exists before, exchanges r = (before ++ [(q, a)])%list) /\
     exists d', result r = Some (d', diag.Errorf (failureFormat q) (failureSubject q) e)) /\
  (forall sess q,
     getIBMPISession meta = inl sess -> In q (requests r) ->
     clientOf q = NewIBMPIVpnPolicyClient sess (cloudInstanceOf q)).
Proof.
  assert (HRead : forall d0 w0 x,
            responseError (snd x) = None ->
            (forall sess, getIBMPISession meta = inl sess ->
               clientOf (fst x) = NewIBMPIVpnPolicyClient sess (cloudInstanceOf (fst x))) ->
            let r := withExchange x (run api (resourceIBMPIIPSecPolicyRead d0 meta) w0) in
            logged r = flat_map logLine (exchanges r) /\
            (forall q a e,
               In (q, a) (exchanges r) -> responseError a = Some e ->
               (exists before, exchanges r = (before ++ [(q, a)])%list) /\
               exists d', result r = Some (d', diag.Errorf (failureFormat q) (failureSubject q) e)) /\
            (forall sess q,
               getIBMPISession meta = inl sess -> In q (requests r) ->
               clientOf q = NewIBMPIVpnPolicyClient sess (cloudInstanceOf q))).
  { intros d0 w0 [q0 a0] Hok Hcl. cbv zeta.
    pose proof (Read_summary d0 meta api w0) as (L & E & C). simpl in Hok, Hcl.
    unfold requests in *. cbn [withExchange exchanges logged result map fst flat_map].
    split; [|split].
    - unfold logLine at 1. cbn [fst snd]. rewrite Hok. exact L.
    - intros q a e [X|Hin] He.
      + injection X as <- <-. rewrite Hok in He. discriminate He.
      + destruct (E q a e Hin He) as (-> & d' & R).
        split; [exists [(q0, a0)]; reflexivity | exists d'; exact R].
    - intros sess q Hs [<-|Hin]; [exact (Hcl sess Hs) | exact (C sess q Hs Hin)]. }
  cbv zeta. destruct op; simpl lifecycle.
  - pose proof (run_Create d meta api w) as H. cbv zeta in H.
    destruct H as [[_ [err ->]]|[_ (sess & Hs &
                                   [(p & policyID & w' & _ & _ & ->)
                                   |[(p & w' & _ & _ & ->)|(e & w' & _ & ->)]])]].
    + simpl. split; [reflexivity|]. split; [intros q a e []|intros s q _ []].
    + apply HRead; [reflexivity|].
      intros s Hs'. rewrite Hs in Hs'. injection Hs' as <-. reflexivity.
    + simpl. split; [reflexivity|]. split.
      * intros q a e [E|[]] He. injection E as <- <-. discriminate He.
      * intros s q Hs' [<-|[]]. rewrite Hs in Hs'. injection Hs' as <-. reflexivity.
    + simpl. split; [reflexivity|]. split.
      * intros q a e0 [E|[]] He. injection E as <- <-. injection He as <-.
        split; [exists []; reflexivity | eexists; reflexivity].
      * intros s q Hs' [<-|[]]. rewrite Hs in Hs'. injection Hs' as <-. reflexivity.
  - pose proof (Read_summary d meta api w) as (L & E & C).
    split; [exact L|]. split; [|exact C].
    intros q a e Hin He. destruct (E q a e Hin He) as (X & R).
    split; [exists []; exact X | exact R].
  - pose proof (run_Update d meta api w) as H. cbv zeta in H.
    destruct H as [[_ [err ->]]|[_ (sess & c & i & rest & Hs & _ & [(p & w' & _ & ->)|(e & w' & _ & ->)])]].
    + simpl. split; [reflexivity|]. split; [intros q a e []|intros s q _ []].
    + apply HRead; [reflexivity|].
      intros s Hs'. rewrite Hs in Hs'. injection Hs' as <-. reflexivity.
    + simpl. split; [reflexivity|]. split.
      * intros q a e0 [E|[]] He. injection E as <- <-. injection He as <-.
        split; [exists []; reflexivity | eexists; reflexivity].
      * intros s q Hs' [<-|[]]. rewrite Hs in Hs'. injection Hs' as <-. reflexivity.
  - pose proof (run_Delete d meta api w) as H. cbv zeta in H.
    destruct H as [[_ [err ->]]|[_ (sess & c & i & rest & Hs & _ & [(w' & _ & ->)|(e & w' & _ & ->)])]];
      simpl.
    + split; [reflexivity|]. split; [intros q a e []|intros s q _ []].
    + split; [reflexivity|]. split.
      * intros q a e [E|[]] He. injection E as <- <-. discriminate He.
      * intros s q Hs' [<-|[]]. rewrite Hs in Hs'. injection Hs' as <-. reflexivity.
    + split; [reflexivity|]. split.
      * intros q a e0 [E|[]] He. injection E as <- <-. injection He as <-.
        split; [exists []; reflexivity | eexists; reflexivity].
      * intros s q Hs' [<-|[]]. rewrite Hs in Hs'. injection Hs' as <-. reflexivity.
Qed.

(** X6. When the remote answers a request of a lifecycle function with an
    error, that exchange is the last of the run, and the function returns
    the one diagnostic made for the failed request: the create format with
    the cloud instance for a failed create, the update and delete formats
    with the policy for a failed update or delete, and the cloud connection
    format with the policy for a failed get - also for the get that reads
    back inside [Create] and [Update]. *)
Theorem X6_failure_diagnostic (op : Operation) (d : PolicyData)
    (meta : ClientSession) (W : Type) (api : VpnPolicyAPI W) (w : W)
    (q : Request) (a : Response) (e : error) :
  In (q, a) (exchanges (run api (lifecycle op d meta) w)) ->
  responseError a = Some e ->
  (exists before,
     exchanges (run api (lifecycle op d meta) w) = (before ++ [(q, a)])%list) /\
  exists d',
    result (run api (lifecycle op d meta) w)
      = Some (d', diag.Errorf (failureFormat q) (failureSubject q) e).
Proof.
  pose proof (lifecycle_summary op d meta api w) as (_ & E & _).
  exact (E q a e).
Qed.

Lemma X6_failure_diagnostic_witness :
  (exists before,
     exchanges (run scriptedAPI (lifecycle OpCreate sampleNew sampleSession)
                  [RespPolicy (inl samplePolicy); RespPolicy (inr "503 unavailable")])
       = (before ++
          [(ReqGet (NewIBMPIVpnPolicyClient {| sessionHandle := "session" |} "cloud-1")
              "p-1" "cloud-1",
            RespPolicy (inr "503 unavailable"))])%list) /\
  exists d',
    result (run scriptedAPI (lifecycle OpCreate sampleNew sampleSession)
              [RespPolicy (inl samplePolicy); RespPolicy (inr "503 unavailable")])
      = Some (d', diag.Errorf diag.GetCloudConnectionOperationFailed "p-1"
                    "503 unavailable").
Proof.
  apply (@X6_failure_diagnostic OpCreate sampleNew sampleSession _ scriptedAPI
           [RespPolicy (inl samplePolicy); RespPolicy (inr "503 unavailable")]
           (ReqGet (NewIBMPIVpnPolicyClient {| sessionHandle := "session" |} "cloud-1")
              "p-1" "cloud-1")
           (RespPolicy (inr "503 unavailable")) "503 unavailable").
  - simpl. right. left. reflexivity.
  - reflexivity.
Defined.

(** X7. The log of a run is settled by its exchanges: one line, with the
    error, for each failed create, get or delete, in order; nothing for a
    failed update, for a success, or for a failure before the remote is
    reached. *)
Theorem X7_log_lines (op : Operation) (d : PolicyData) (meta : ClientSession)
    (W : Type) (api : VpnPolicyAPI W) (w : W) :
  logged (run api (lifecycle op d meta) w)
    = flat_map logLine (exchanges (run api (lifecycle op d meta) w)).
Proof.
  pose proof (lifecycle_summary op d meta api w) as (L & _ & _).
  exact L.
Qed.

(** X8. Every request of every lifecycle function goes through a client
    made from the session of [meta] for the very cloud instance the request
    names: for [Create] the configured one, for the others, and for the
    read-back, the first part of the stored identifier. *)
Theorem X8_client_matches_request (op : Operation) (d : PolicyData)
    (meta : ClientSession) (sess : IBMPISession) (W : Type)
    (api : VpnPolicyAPI W) (w : W) (q : Request) :
  getIBMPISession meta = inl sess ->
  In q (requests (run api (lifecycle op d meta) w)) ->
  clientOf q = NewIBMPIVpnPolicyClient sess (cloudInstanceOf q).
Proof.
  pose proof (lifecycle_summary op d meta api w) as (_ & _ & C).
  exact (C sess q).
Qed.

Lemma X8_client_matches_request_witness :
  clientOf (ReqGet (NewIBMPIVpnPolicyClient {| sessionHandle := "session" |} "a") "b" "a")
    = NewIBMPIVpnPolicyClient {| sessionHandle := "session" |}
        (cloudInstanceOf
           (ReqGet (NewIBMPIVpnPolicyClient {| sessionHandle := "session" |} "a") "b" "a")).
Proof.
  apply (@X8_client_matches_request OpCreate slashNew sampleSession
           {| sessionHandle := "session" |} _ scriptedAPI
           [RespPolicy (inl samplePolicy); RespPolicy (inl samplePolicy)]
           (ReqGet (NewIBMPIVpnPolicyClient {| sessionHandle := "session" |} "a") "b" "a")).
  - reflexivity.
  - simpl. right. left. reflexivity.
Defined.

(** X9. [Update] asks the remote for one policy only: nothing when it does
    not get that far, the update request alone when the update fails, and
    after a successful update the get of the same policy, in the same cloud
    instance, through the same client. *)
Theorem X9_update_reads_back_same_policy (d : PolicyData) (meta : ClientSession)
    (W : Type) (api : VpnPolicyAPI W) (w : W) :
  let r := run api (resourceIBMPIIPSecPolicyUpdate d meta) w in
  match responses r with
  | [] => requests r = []
  | RespPolicy (inr _) :: _ =>
      exists client pid cid,
        requests r = [ReqUpdate client (updateBody d) pid cid]
  | RespPolicy (inl _) :: _ =>
      exists client pid cid,
        requests r = [ReqUpdate client (updateBody d) pid cid; ReqGet client pid cid]
  | RespDelete _ :: _ => False
  end.
Proof.
  cbv zeta.
  pose proof (run_Update d meta api w) as H. cbv zeta in H.
  destruct H as [[_ [err ->]]|[Hr (sess & c & i & rest & Hs & Hid & [(p & w' & _ & ->)|(e & w' & _ & ->)])]].
  - reflexivity.
  - unfold responses, requests. cbn [withExchange exchanges map fst snd].
    exists (NewIBMPIVpnPolicyClient sess c), i, c. f_equal.
    pose proof (run_Read d meta api w') as R. cbv zeta in R.
    destruct R as [[Hn _]|[_ (sess' & c' & i' & rest' & Hs' & Hid' & R)]].
    + change (reachesRemote OpRead d meta) with (reachesRemote OpUpdate d meta) in Hn.
      rewrite Hr in Hn. discriminate.
    + rewrite Hs in Hs'. injection Hs' as <-.
      rewrite Hid in Hid'. injection Hid' as <- <- <-.
      destruct R as [(p2 & w2 & _ & ->)|[(w2 & _ & ->)|(e & w2 & _ & ->)]]; reflexivity.
  - unfold responses, requests. simpl. eexists _, _, _. reflexivity.
Qed.

(** ** Before the remote is reached *)

(** A lifecycle function that does not get to the remote returns at once,
    with the error that stopped it: the session error, or else the error of
    the identifier parse. *)
Lemma unreached_run (op : Operation) (d : PolicyData) (meta : ClientSession)
    (W : Type) (api : VpnPolicyAPI W) (w : W) :
  reachesRemote op d meta = false ->
  exists err,
    (getIBMPISession meta = inr err \/
     ((exists sess, getIBMPISession meta = inl sess) /\ snd (idParts (Id d)) = Some err)) /\
    run api (lifecycle op d meta) w = finished (d, diag.FromErr err) [] w.
Proof.
  unfold reachesRemote.
  destruct op; simpl lifecycle;
    unfold resourceIBMPIIPSecPolicyCreate, resourceIBMPIIPSecPolicyRead,
      resourceIBMPIIPSecPolicyUpdate, resourceIBMPIIPSecPolicyDelete;
    destruct (getIBMPISession meta) as [sess|err] eqn:Hs;
    try (intros _; exists err; split; [left; reflexivity | reflexivity]);
    try discriminate;
    destruct (idParts (Id d)) as [parts [err|]] eqn:Hid; simpl; try discriminate;
    intros _; exists err; (split; [right; split; [exists sess|]; reflexivity | reflexivity]).
Qed.

(** X10. A lifecycle function whose session setup fails, or whose stored
    identifier does not parse, returns the resource data untouched with the
    one diagnostic of that error, the session error first; it sends nothing,
    logs nothing and leaves the remote as it is. *)
Theorem X10_setup_failure (op : Operation) (d : PolicyData) (meta : ClientSession)
    (W : Type) (api : VpnPolicyAPI W) (w : W) :
  reachesRemote op d meta = false ->
  exists err,
    (getIBMPISession meta = inr err \/
     ((exists sess, getIBMPISession meta = inl sess) /\ snd (idParts (Id d)) = Some err)) /\
    result (run api (lifecycle op d meta) w) = Some (d, diag.FromErr err) /\
    exchanges (run api (lifecycle op d meta) w) = [] /\
    logged (run api (lifecycle op d meta) w) = [] /\
    remote (run api (lifecycle op d meta) w) = w.
Proof.
  intros H. destruct (unreached_run op d meta api w H) as (err & Hwhy & ->).
  exists err. split; [exact Hwhy|]. repeat split.
Qed.

Lemma X10_setup_failure_witness :
  exists err,
    (getIBMPISession brokenSession = inr err \/
     ((exists sess, getIBMPISession brokenSession = inl sess) /\
      snd (idParts (Id sampleStored)) = Some err)) /\
    result (run refusingAPI (lifecycle OpUpdate sampleStored brokenSession) tt)
      = Some (sampleStored, diag.FromErr err) /\
    exchanges (run refusingAPI (lifecycle OpUpdate sampleStored brokenSession) tt) = [] /\
    logged (run refusingAPI (lifecycle OpUpdate sampleStored brokenSession) tt) = [] /\
    remote (run refusingAPI (lifecycle OpUpdate sampleStored brokenSession) tt) = tt.
Proof.
  apply (@X10_setup_failure OpUpdate sampleStored brokenSession unit refusingAPI tt).
  reflexivity.
Defined.

(** X11. Once [Delete] has succeeded, the resource data it leaves is of no
    more use to a read, update or delete: with any session and any remote,
    each of them stops at the identifier (or at the session), sends nothing
    and returns a diagnostic with the data untouched. *)
Theorem X11_after_delete (d d' : PolicyData) (meta : ClientSession)
    (W : Type) (api : VpnPolicyAPI W) (w : W)
    (op : Operation) (meta' : ClientSession) (W' : Type) (api' : VpnPolicyAPI W') (w' : W') :
  result (run api (resourceIBMPIIPSecPolicyDelete d meta) w) = Some (d', []) ->
  op <> OpCreate ->
  exchanges (run api' (lifecycle op d' meta') w') = [] /\
  exists err, result (run api' (lifecycle op d' meta') w') = Some (d', diag.FromErr err).
Proof.
  intros E Hop.
  assert (Hid : Id d' = "").
  { pose proof (run_Delete d meta api w) as H. cbv zeta in H.
    destruct H as [[_ [err H]]|[_ (sess & c & i & rest & _ & _ & [(w2 & _ & H)|(e & w2 & _ & H)])]];
      rewrite H in E; simpl in E; try discriminate E.
    injection E as <-. reflexivity. }
  assert (Hr : reachesRemote op d' meta' = false).
  { unfold reachesRemote. rewrite Hid.
    destruct (getIBMPISession meta'); [|reflexivity].
    destruct op; [contradiction|reflexivity..]. }
  destruct (unreached_run op d' meta' api' w' Hr) as (err & _ & ->).
  split; [reflexivity|]. exists err. reflexivity.
Qed.

Lemma X11_after_delete_witness :
  exchanges (run refusingAPI (lifecycle OpRead (SetId sampleStored "") sampleSession) tt) = [] /\
  exists err,
    result (run refusingAPI (lifecycle OpRead (SetId sampleStored "") sampleSession) tt)
      = Some (SetId sampleStored "", diag.FromErr err).
Proof.
  apply (@X11_after_delete sampleStored (SetId sampleStored "") sampleSession
           _ scriptedAPI [RespDelete None] OpRead sampleSession unit refusingAPI tt).
  - reflexivity.
  - discriminate.
Defined.

(** ** What no lifecycle function writes *)

(** X12. A run of a lifecycle function ends in a panic exactly when one of
    its answers cannot be used: a create answered without error by a policy
    that is [nil] or has no ID, or a get answered without error by a [nil]
    policy; in particular no index into the parsed identifier is out of
    range.  Whenever a run returns, the cloud instance attribute reads as it
    read before - no lifecycle function writes it, neither after a read of a
    resource whose identifier names another cloud instance - and [Read] and
    [Update] return the identifier they were given. *)
Theorem X12_cloud_instance_never_written (op : Operation) (d : PolicyData)
    (meta : ClientSession) (W : Type) (api : VpnPolicyAPI W) (w : W) :
  let r := run api (lifecycle op d meta) w in
  (result r = None <-> existsb unusable (exchanges r) = true) /\
  (forall d' ds,
     result r = Some (d', ds) ->
     Get d' PICloudInstanceId = Get d PICloudInstanceId /\
     (op = OpRead \/ op = OpUpdate -> Id d' = Id d)).
Proof.
  assert (HRead : forall d0 w0 x,
            unusable x = false ->
            let r := withExchange x (run api (resourceIBMPIIPSecPolicyRead d0 meta) w0) in
            (result r = None <-> existsb unusable (exchanges r) = true) /\
            (forall d' ds,
               result r = Some (d', ds) ->
               Get d' PICloudInstanceId = Get d0 PICloudInstanceId /\ Id d' = Id d0)).
  { intros d0 w0 x Hx. cbv zeta. cbn [withExchange exchanges result existsb]. rewrite Hx.
    cbn [orb]. split.
    - pose proof (run_Read d0 meta api w0) as H. cbv zeta in H.
      destruct H as [[_ [err ->]]|[_ (sess' & c & i & rest & _ & _ &
                                     [(p & w' & _ & ->)|[(w' & _ & ->)|(e & w' & _ & ->)]])]];
        simpl; split; try discriminate; reflexivity.
    - intros d' ds E. destruct (Read_keeps_identifier d0 meta api w0 E) as (Hi & Hc).
      split; assumption. }
  cbv zeta. destruct op; simpl lifecycle.
  - pose proof (run_Create d meta api w) as H. cbv zeta in H.
    destruct H as [[_ [err ->]]|[_ (sess & Hs &
                                   [(p & policyID & w' & _ & Hp & ->)
                                   |[(p & w' & _ & Hp & ->)|(e & w' & _ & ->)]])]].
    + simpl. split; [split; discriminate|].
      intros d' ds E. injection E as <- <-. split; [reflexivity|].
      intros [X|X]; discriminate X.
    + destruct (HRead (SetId d (Get d PICloudInstanceId ++ "/" ++ policyID)) w'
                  (ReqCreate (NewIBMPIVpnPolicyClient sess (Get d PICloudInstanceId))
                     (createBody d) (Get d PICloudInstanceId), RespPolicy (inl p)))
        as (HP & HR); [cbn [unusable]; rewrite Hp; reflexivity|].
      split; [exact HP|].
      intros d' ds E. destruct (HR d' ds E) as (Hc & _).
      split; [exact Hc|]. intros [X|X]; discriminate X.
    + cbn [withExchange panicked exchanges result existsb unusable]. rewrite Hp.
      split; [split; reflexivity|]. intros d' ds E. discriminate E.
    + simpl. split; [split; discriminate|].
      intros d' ds E. injection E as <- <-. split; [reflexivity|].
      intros [X|X]; discriminate X.
  - split.
    + pose proof (run_Read d meta api w) as H. cbv zeta in H.
      destruct H as [[_ [err ->]]|[_ (sess' & c & i & rest & _ & _ &
                                     [(p & w' & _ & ->)|[(w' & _ & ->)|(e & w' & _ & ->)]])]];
        simpl; split; try discriminate; reflexivity.
    + intros d' ds E. destruct (Read_keeps_identifier d meta api w E) as (Hi & Hc).
      split; [exact Hc|]. intros _. exact Hi.
  - pose proof (run_Update d meta api w) as H. cbv zeta in H.
    destruct H as [[_ [err ->]]|[_ (sess & c & i & rest & _ & _ &
                                   [(p & w' & _ & ->)|(e & w' & _ & ->)])]].
    + simpl. split; [split; discriminate|].
      intros d' ds E. injection E as <- <-. split; reflexivity.
    + destruct (HRead d w'
                  (ReqUpdate (NewIBMPIVpnPolicyClient sess c) (updateBody d) i c,
                   RespPolicy (inl p)))
        as (HP & HR); [reflexivity|].
      split; [exact HP|].
      intros d' ds E. destruct (HR d' ds E) as (Hc & Hi).
      split; [exact Hc|]. intros _. exact Hi.
    + simpl. split; [split; discriminate|].
      intros d' ds E. injection E as <- <-. split; reflexivity.
  - pose proof (run_Delete d meta api w) as H. cbv zeta in H.
    destruct H as [[_ [err ->]]|[_ (sess & c & i & rest & _ & _ &
                                   [(w' & _ & ->)|(e & w' & _ & ->)])]];
      simpl; (split; [split; discriminate|]);
      intros d' ds E; injection E as <- <-; (split; [reflexivity|]);
      intros [X|X]; discriminate X.
Qed.

(** A resource that has only its identifier, as after an import: a
    successful read fills the seven attributes and leaves the cloud instance
    attribute unset, though the identifier names the cloud instance. *)
Example read_after_import_leaves_cloud_instance_unset :
  let imported : PolicyData :=
    {| rd_id := "cloud-1/p-1";
       rd_state := empty_level ipsecPolicySchema;
       rd_diff := empty_level ipsecPolicySchema;
       rd_set := empty_level ipsecPolicySchema |} in
  let r := run scriptedAPI (resourceIBMPIIPSecPolicyRead imported sampleSession)
             [RespPolicy (inl samplePolicy)] in
  option_map (fun x => (Get (fst x) PICloudInstanceId, Get (fst x) PIVPNPolicyName, snd x))
    (result r) = Some ("", "policy-a", []).
Proof.
  vm_compute. reflexivity.
Qed.

(** ** The schema, key by key *)

Lemma accepts_from_each_key (sch : Key -> Schema) (c : ResourceConfig sch) :
  (forall k, diag.HasError (validate k c) = false) -> accepts c = true.
Proof.
  intros H. unfold accepts, Validate. apply negb_true_iff.
  destruct (diag.HasError (flat_map (fun k => validate k c) all_keys)) eqn:E; [|reflexivity].
  unfold diag.HasError in E. apply existsb_exists in E as (x & Hin & Hx).
  apply in_flat_map in Hin as (k & _ & Hin).
  rewrite <- (H k). symmetry. unfold diag.HasError.
  apply existsb_exists. exists x. split; assumption.
Qed.

Lemma validateAllowedIntValue_complete (allowed : list Z) (value : Z) :
  In value allowed -> snd (validateAllowedIntValue allowed value) = [].
Proof.
  intros H. unfold validateAllowedIntValue.
  destruct (existsb (Z.eqb value) allowed) eqn:E; [reflexivity|].
  assert (existsb (Z.eqb value) allowed = true) as X.
  { apply existsb_exists. exists value. split; [exact H | apply Z.eqb_refl]. }
  rewrite X in E. discriminate.
Qed.

Lemma validateAllowedStringValue_complete (validValues : list string) (input : string) :
  In input validValues -> snd (validateAllowedStringValue validValues input) = [].
Proof.
  intros H. unfold validateAllowedStringValue.
  destruct (existsb (String.eqb input) validValues) eqn:E; [reflexivity|].
  assert (existsb (String.eqb input) validValues = true) as X.
  { apply existsb_exists. exists input. split; [exact H | apply String.eqb_refl]. }
  rewrite X in E. discriminate.
Qed.

Lemma validateAllowedRangeInt_complete (first last value : Z) :
  first <= value <= last -> snd (validateAllowedRangeInt first last value) = [].
Proof.
  intros H. unfold validateAllowedRangeInt.
  destruct (value <? first) eqn:E1; [apply Z.ltb_lt in E1; lia|].
  destruct (value >? last) eqn:E2; [|reflexivity].
  rewrite Z.gtb_ltb in E2. apply Z.ltb_lt in E2. lia.
Qed.

(** Which configurations the schema accepts: the six required attributes
    are there, the DH group, the encryption and the key lifetime pass their
    validators, the authentication is left out or passes its validator, and
    the computed policy ID is not set. *)
Lemma accepts_iff (c : ResourceConfig ipsecPolicySchema) :
  accepts c = true <->
  (c PICloudInstanceId <> None /\
   c PIVPNPolicyName <> None /\
   (exists dhGroup, c PIVPNPolicyDhGroup = Some dhGroup /\ In dhGroup allowedDhGroups) /\
   (exists encryption,
      c PIVPNPolicyEncryption = Some encryption /\ In encryption allowedEncryptions) /\
   (exists keyLifetime,
      c PIVPNPolicyKeyLifetime = Some keyLifetime /\ 180 <= keyLifetime <= 86400) /\
   c PIVPNPolicyPFS <> None /\
   (c PIVPNPolicyAuthentication = None \/
    exists authentication,
      c PIVPNPolicyAuthentication = Some authentication /\
      In authentication allowedAuthentications) /\
   c PIPolicyId = None).
Proof.
  split.
  - intros Hacc.
    pose proof (accepts_each_key c PICloudInstanceId Hacc) as H1.
    pose proof (accepts_each_key c PIVPNPolicyName Hacc) as H2.
    pose proof (accepts_each_key c PIVPNPolicyDhGroup Hacc) as H3.
    pose proof (accepts_each_key c PIVPNPolicyEncryption Hacc) as H4.
    pose proof (accepts_each_key c PIVPNPolicyKeyLifetime Hacc) as H5.
    pose proof (accepts_each_key c PIVPNPolicyPFS Hacc) as H6.
    pose proof (accepts_each_key c PIVPNPolicyAuthentication Hacc) as H7.
    pose proof (accepts_each_key c PIPolicyId Hacc) as H8.
    unfold validate in *.
    destruct (c PICloudInstanceId); [|discriminate H1].
    destruct (c PIVPNPolicyName); [|discriminate H2].
    destruct (c PIVPNPolicyDhGroup) as [dh|]; [|discriminate H3].
    destruct (c PIVPNPolicyEncryption) as [enc|]; [|discriminate H4].
    destruct (c PIVPNPolicyKeyLifetime) as [kl|]; [|discriminate H5].
    destruct (c PIVPNPolicyPFS); [|discriminate H6].
    destruct (c PIPolicyId); [discriminate H8|].
    cbn [ipsecPolicySchema Required Optional ValidateFunc Type_ negb andb] in *.
    rewrite HasError_of_validator in H3, H4, H5.
    repeat (split; [discriminate|]).
    split; [exists dh; split; [reflexivity|]; apply validateAllowedIntValue_ok;
            destruct (snd (validateAllowedIntValue allowedDhGroups dh));
            [reflexivity|discriminate]|].
    split; [exists enc; split; [reflexivity|]; apply validateAllowedStringValue_ok;
            destruct (snd (validateAllowedStringValue allowedEncryptions enc));
            [reflexivity|discriminate]|].
    split; [exists kl; split; [reflexivity|]; apply validateAllowedRangeInt_ok;
            destruct (snd (validateAllowedRangeInt 180 86400 kl));
            [reflexivity|discriminate]|].
    split; [discriminate|]. split; [|reflexivity].
    destruct (c PIVPNPolicyAuthentication) as [au|]; [right|left; reflexivity].
    rewrite HasError_of_validator in H7.
    exists au; split; [reflexivity|]. apply validateAllowedStringValue_ok.
    destruct (snd (validateAllowedStringValue allowedAuthentications au));
      [reflexivity|discriminate].
  - intros (H1 & H2 & (dh & H3 & Idh) & (enc & H4 & Ienc) & (kl & H5 & Ikl) & H6 & H7 & H8).
    apply accepts_from_each_key. intros k. unfold validate.
    destruct k; cbn [ipsecPolicySchema Required Optional ValidateFunc Type_ negb andb].
    + destruct (c PICloudInstanceId); [reflexivity | contradiction].
    + destruct (c PIVPNPolicyName); [reflexivity | contradiction].
    + rewrite H3, HasError_of_validator, (@validateAllowedIntValue_complete _ _ Idh).
      reflexivity.
    + rewrite H4, HasError_of_validator, (@validateAllowedStringValue_complete _ _ Ienc).
      reflexivity.
    + rewrite H5, HasError_of_validator, (@validateAllowedRangeInt_complete _ _ _ Ikl).
      reflexivity.
    + destruct (c PIVPNPolicyPFS); [reflexivity | contradiction].
    + destruct H7 as [->|(au & -> & Iau)]; [reflexivity|].
      rewrite HasError_of_validator, (@validateAllowedStringValue_complete _ _ Iau).
      reflexivity.
    + rewrite H8. reflexivity.
Qed.

(** X13. The schema accepts a configuration exactly when it gives the cloud
    instance, the name and PFS, gives a DH group, an encryption and a key
    lifetime that their validators pass, gives no authentication or one its
    validator passes, and does not set the computed policy ID.  Nothing else
    is asked: the cloud instance and the name may be any string. *)
Theorem X13_schema_accepts_exactly (c : ResourceConfig ipsecPolicySchema) :
  accepts c = true <->
  (c PICloudInstanceId <> None /\
   c PIVPNPolicyName <> None /\
   (exists dhGroup, c PIVPNPolicyDhGroup = Some dhGroup /\ In dhGroup allowedDhGroups) /\
   (exists encryption,
      c PIVPNPolicyEncryption = Some encryption /\ In encryption allowedEncryptions) /\
   (exists keyLifetime,
      c PIVPNPolicyKeyLifetime = Some keyLifetime /\ 180 <= keyLifetime <= 86400) /\
   c PIVPNPolicyPFS <> None /\
   (c PIVPNPolicyAuthentication = None \/
    exists authentication,
      c PIVPNPolicyAuthentication = Some authentication /\
      In authentication allowedAuthentications) /\
   c PIPolicyId = None).
Proof.
  exact (accepts_iff c).
Qed.

(** What [Get] reads from the resource data of a new resource: the planned
    value, or the zero value of the type. *)
Lemma Get_newResource (c : ResourceConfig ipsecPolicySchema) (k : Key) :
  Get (newResource c) k = orZero ipsecPolicySchema k (planned c k).
Proof.
  unfold Get, readSet, readDiff, readState, newResource, empty_level. simpl.
  destruct (planned c k); reflexivity.
Qed.

(** X14. Validation and [Create] compose: for a configuration the schema
    accepts, the create request is sent for the configured cloud instance
    with a body whose DH group, encryption and key lifetime pass the
    validators of the schema, and whose authentication is the configured
    one or the default "none", so one of the four allowed values and never
    empty. *)
Theorem X14_accepted_configuration_create_body (c : ResourceConfig ipsecPolicySchema)
    (meta : ClientSession) (sess : IBMPISession) (W : Type)
    (api : VpnPolicyAPI W) (w : W) :
  accepts c = true ->
  getIBMPISession meta = inl sess ->
  exists body cid rest,
    requests (run api (resourceIBMPIIPSecPolicyCreate (newResource c) meta) w)
      = ReqCreate (NewIBMPIVpnPolicyClient sess cid) body cid :: rest /\
    c PICloudInstanceId = Some cid /\
    (exists dhGroup, c_DhGroup body = Some dhGroup /\ In dhGroup allowedDhGroups) /\
    (exists encryption, c_Encryption body = Some encryption /\ In encryption allowedEncryptions) /\
    180 <= c_KeyLifetime body <= 86400 /\
    In (c_Authentication body) allowedAuthentications.
Proof.
  intros Hacc Hs.
  apply accepts_iff in Hacc
    as (H1 & _ & (dh & H3 & Idh) & (enc & H4 & Ienc) & (kl & H5 & Ikl) & _ & H7 & _).
  destruct (@Create_first_request (newResource c) meta sess W api w Hs) as (rest & E).
  destruct (c PICloudInstanceId) as [cid|] eqn:Hc; [|contradiction].
  assert (Gc : Get (newResource c) PICloudInstanceId = cid).
  { rewrite Get_newResource. unfold planned. rewrite Hc. reflexivity. }
  rewrite Gc in E.
  exists (createBody (newResource c)), cid, rest.
  split; [exact E|]. split; [reflexivity|].
  pose proof (createBody_fields (newResource c)) as (F1 & F2 & F3 & _ & _).
  pose proof (createBody_authentication (newResource c)) as F4.
  rewrite Get_newResource in F1, F2, F3, F4. unfold planned in F1, F2, F3, F4.
  rewrite H3 in F1. rewrite H4 in F2. rewrite H5 in F3.
  split; [exists dh; split; [exact F1 | exact Idh]|].
  split; [exists enc; split; [exact F2 | exact Ienc]|].
  split; [rewrite F3; exact Ikl|].
  rewrite F4.
  destruct H7 as [->|(au & -> & Iau)]; [simpl; tauto | exact Iau].
Qed.

Lemma X14_accepted_configuration_create_body_witness :
  exists body cid rest,
    requests (run refusingAPI (resourceIBMPIIPSecPolicyCreate (newResource sampleConfig)
                                 sampleSession) tt)
      = ReqCreate (NewIBMPIVpnPolicyClient {| sessionHandle := "session" |} cid) body cid
          :: rest /\
    sampleConfig PICloudInstanceId = Some cid /\
    (exists dhGroup, c_DhGroup body = Some dhGroup /\ In dhGroup allowedDhGroups) /\
    (exists encryption, c_Encryption body = Some encryption /\ In encryption allowedEncryptions) /\
    180 <= c_KeyLifetime body <= 86400 /\
    In (c_Authentication body) allowedAuthentications.
Proof.
  apply (@X14_accepted_configuration_create_body sampleConfig sampleSession
           {| sessionHandle := "session" |} unit refusingAPI tt);
    reflexivity.
Defined.

(** ** Identifiers with more than two parts *)

(** X15. A read, update or delete takes the first two parts of the stored
    identifier and nothing else: whenever the identifier parses, into two
    parts or more, its first request goes to the cloud instance named by the
    first part for the policy named by the second, and any further part is
    ignored without an error. *)
Theorem X15_first_two_parts_address (op : Operation) (d : PolicyData)
    (meta : ClientSession) (sess : IBMPISession) (cid pid : string)
    (rest : list string) (W : Type) (api : VpnPolicyAPI W) (w : W) :
  op <> OpCreate ->
  getIBMPISession meta = inl sess ->
  idParts (Id d) = (cid :: pid :: rest, None) ->
  exists q tl,
    requests (run api (lifecycle op d meta) w) = q :: tl /\
    operationOf q = op /\
    clientOf q = NewIBMPIVpnPolicyClient sess cid /\
    cloudInstanceOf q = cid /\
    policyOf q = Some pid.
Proof.
  apply first_request_from_parts.
Qed.

Lemma X15_first_two_parts_address_witness :
  exists q tl,
    requests (run refusingAPI (lifecycle OpDelete slashStored sampleSession) tt) = q :: tl /\
    operationOf q = OpDelete /\
    clientOf q = NewIBMPIVpnPolicyClient {| sessionHandle := "session" |} "a" /\
    cloudInstanceOf q = "a" /\
    policyOf q = Some "b".
Proof.
  apply (@X15_first_two_parts_address OpDelete slashStored sampleSession
           {| sessionHandle := "session" |} "a" "b" ["p-1"] unit refusingAPI tt).
  - discriminate.
  - reflexivity.
  - reflexivity.
Defined.
